(** * SQLite3-on-SPIFFS example (main/spiffs.c): a shallow embedding

    The program is sequential glue around two external collaborators, the
    SPIFFS driver and the SQLite engine.  The collaborators are kept abstract
    (class [Platform]); every call into them, every [printf] and every
    [ESP_LOGx] is recorded, in program order, in a trace of [event]s.  The C
    globals [zErrMsg], [db1], [db2] and [rc] are threaded explicitly. *)

From Stdlib Require Import ZArith List String Ascii Bool Lia DecimalString.
Import ListNotations.
Open Scope string_scope.
Open Scope list_scope.
Open Scope Z_scope.

(** ** Data *)

(** A [char *]: [None] is the NULL pointer, [Some s] points at the text [s]. *)
Definition cstr := option string.

(** A [sqlite3 *]: the address of the connection object, [0] for NULL. *)
Definition sqlite3_ptr := Z.

(** [esp_vfs_spiffs_conf_t], with the four fields the program initialises. *)
Record esp_vfs_spiffs_conf_t := {
  base_path : string;
  partition_label : cstr;
  max_files : Z;
  format_if_mount_failed : bool
}.

(** What one [sqlite3_exec] call hands back: its status, the result rows it
    delivers to the callback (column name and column text, the text NULL for
    an SQL NULL), and the value it leaves in [*errmsg]. *)
Record exec_result := {
  exec_rc : Z;
  exec_rows : list (list (string * cstr));
  exec_errmsg : cstr
}.

(** Arguments of the variadic [printf] / [ESP_LOGx] calls. *)
Inductive arg :=
| AStr (s : cstr)
| AInt (n : Z).

Inductive log_level := LOG_INFO | LOG_ERROR.

(** Observable effects, in the order the program performs them. *)
Inductive event :=
| ESP_LOG (lvl : log_level) (tag fmt : string) (args : list arg)
| Printf (fmt : string) (args : list arg)
| Call_spiffs_register (conf : esp_vfs_spiffs_conf_t) (ret : Z)
| Call_spiffs_info (label : cstr) (ret total used : Z)
| Call_unlink (path : string)
| Call_sqlite3_initialize
| Call_sqlite3_open (filename : string) (rc : Z) (db : sqlite3_ptr)
| Call_sqlite3_errmsg (db : sqlite3_ptr)
| Call_sqlite3_exec (db : sqlite3_ptr) (sql : string) (rc : Z)
| Call_sqlite3_free (p : cstr)
| Call_sqlite3_close (db : sqlite3_ptr)
| Call_spiffs_unregister (label : cstr)
| Call_timer (t : Z).

Definition trace := list event.

(** ** The external collaborators

    [W] is the whole state of the outside world (flash, filesystem, engine,
    clock).  The header constants the program compares against are fields
    too: their values live in esp_err.h and sqlite3.h, not in this
    repository. *)
Class Platform (W : Type) := {
  ESP_OK : Z;
  ESP_FAIL : Z;
  ESP_ERR_NOT_FOUND : Z;
  SQLITE_OK : Z;
  esp_vfs_spiffs_register : esp_vfs_spiffs_conf_t -> W -> Z * W;
  esp_spiffs_info : cstr -> W -> (Z * Z * Z) * W;
  esp_vfs_spiffs_unregister : cstr -> W -> Z * W;
  esp_err_to_name : Z -> string;
  esp_timer_get_time : W -> Z * W;
  unlink : string -> W -> Z * W;
  sqlite3_initialize : W -> Z * W;
  sqlite3_open : string -> W -> (Z * sqlite3_ptr) * W;
  sqlite3_errmsg : sqlite3_ptr -> W -> string * W;
  sqlite3_exec : sqlite3_ptr -> string -> W -> exec_result * W;
  sqlite3_free : cstr -> W -> W;
  sqlite3_close : sqlite3_ptr -> W -> Z * W
}.

(** ** C string literals and printf formatting *)

(** A string literal as the source writes it: backslash-n is the newline
    character. *)
Fixpoint lit (s : string) : string :=
  match s with
  | EmptyString => ""
  | String c rest =>
      match rest with
      | String c' rest' =>
          if Ascii.eqb c "\" && Ascii.eqb c' "n"
          then String (ascii_of_nat 10) (lit rest')
          else String c (lit rest)
      | EmptyString => String c ""
      end
  end.


(** [%s]: the pointed-to text; newlib prints "(null)" for a NULL pointer.
    [%lld]: the decimal digits of the [long long] argument. *)
Definition show_arg (a : arg) : string :=
  match a with
  | AStr (Some s) => s
  | AStr None => "(null)"
  | AInt n => NilZero.string_of_int (Z.to_int n)
  end.

(** [%d]: the argument is read as a 32-bit [int], so a [size_t] above
    2^31 - 1 comes out negative. *)
Definition wrap32 (z : Z) : Z := (z + 2 ^ 31) mod 2 ^ 32 - 2 ^ 31.

Definition show_int (a : arg) : string :=
  match a with
  | AInt n => NilZero.string_of_int (Z.to_int (wrap32 n))
  | AStr _ => show_arg a
  end.

Definition next_arg (args : list arg) : string * list arg :=
  match args with
  | a :: rest => (show_arg a, rest)
  | [] => ("", [])
  end.

Definition next_int_arg (args : list arg) : string * list arg :=
  match args with
  | a :: rest => (show_int a, rest)
  | [] => ("", [])
  end.

(** The conversions the program uses: [%s], [%d] and [%lld]. *)
Fixpoint format (fmt : string) (args : list arg) : string :=
  match fmt with
  | EmptyString => ""
  | String c rest =>
      if Ascii.eqb c "%" then
        match rest with
        | String c1 rest1 =>
            if Ascii.eqb c1 "s" then
              (fst (next_arg args) ++ format rest1 (snd (next_arg args)))%string
            else if Ascii.eqb c1 "d" then
              (fst (next_int_arg args)
                 ++ format rest1 (snd (next_int_arg args)))%string
            else
              match rest1 with
              | String c2 (String c3 rest3) =>
                  if Ascii.eqb c1 "l" && Ascii.eqb c2 "l" && Ascii.eqb c3 "d" then
                    (fst (next_arg args) ++ format rest3 (snd (next_arg args)))%string
                  else String c (format rest args)
              | _ => String c (format rest args)
              end
        | EmptyString => String c ""
        end
      else String c (format rest args)
  end.

(** Everything the trace writes to standard output. *)
Fixpoint stdout (tr : trace) : string :=
  match tr with
  | [] => ""
  | Printf fmt args :: tr' => (format fmt args ++ stdout tr')%string
  | _ :: tr' => stdout tr'
  end.

(** [int64_t] arithmetic: the difference of two timestamps, wrapped. *)
Definition wrap64 (z : Z) : Z := (z + 2 ^ 63) mod 2 ^ 64 - 2 ^ 63.
Definition sub64 (a b : Z) : Z := wrap64 (a - b).

(** ** The program *)

(** [const char* data = "Callback function called";] *)
Definition data : cstr := Some "Callback function called".

(** [static const char *TAG] *)
Definition TAG : string := "sqlite3_spiffs".

(** The loop of [callback]: [n] iterations remain, [i] is the loop index.
    [argv[i]] and [azColName[i]] are array reads; a read past the end of an
    array has no defined result. *)
Fixpoint callback_loop (n i : nat) (argv azColName : list cstr) : option trace :=
  match n with
  | O => Some []
  | S n' =>
      match nth_error azColName i, nth_error argv i with
      | Some name, Some value =>
          match callback_loop n' (S i) argv azColName with
          | Some out =>
              Some (Printf (lit "%s = %s\n")
                           [AStr name;
                            AStr (match value with
                                  | Some _ => value
                                  | None => Some "NULL"
                                  end)]
                      :: out)
          | None => None
          end
      | _, _ => None
      end
  end.

(** [static int callback(void *data, int argc, char **argv, char **azColName)]:
    the returned status and the output, or [None] when a read leaves the
    arrays.  It touches no global and calls no collaborator. *)
Definition callback (data : cstr) (argc : Z) (argv azColName : list cstr)
  : option (Z * trace) :=
  match callback_loop (Z.to_nat argc) 0 argv azColName with
  | Some out =>
      Some (0, Printf (lit "%s: \n") [AStr data] :: out ++ [Printf (lit "\n") []])
  | None => None
  end.

(** How [sqlite3_exec] uses the callback it is given: once per result row,
    with the row's column count, its texts and its names.  The status the
    callback returns is always 0, so the engine never aborts on it. *)
Definition deliver_row (row : list (string * cstr)) : trace :=
  match callback data (Z.of_nat (List.length row)) (map snd row)
                 (map (fun c => Some (fst c)) row) with
  | Some (_, out) => out
  | None => []
  end.

Section Program.

Context {W : Type} {P : Platform W}.

(** The world together with the program's global variables. *)
Record state := mkState {
  world : W;
  zErrMsg : cstr;
  db1 : sqlite3_ptr;
  db2 : sqlite3_ptr;
  rc : Z
}.

Definition set_world (w : W) (st : state) : state :=
  mkState w (zErrMsg st) (db1 st) (db2 st) (rc st).
Definition set_zErrMsg (p : cstr) (st : state) : state :=
  mkState (world st) p (db1 st) (db2 st) (rc st).
Definition set_db1 (d : sqlite3_ptr) (st : state) : state :=
  mkState (world st) (zErrMsg st) d (db2 st) (rc st).
Definition set_db2 (d : sqlite3_ptr) (st : state) : state :=
  mkState (world st) (zErrMsg st) (db1 st) d (rc st).
Definition set_rc (r : Z) (st : state) : state :=
  mkState (world st) (zErrMsg st) (db1 st) (db2 st) r.

(** Computations: read and update the state, emit events. *)
Definition M (A : Type) : Type := state -> A * state * trace.

Definition ret {A} (a : A) : M A := fun st => (a, st, []).

Definition bind {A B} (m : M A) (k : A -> M B) : M B :=
  fun st =>
    let '(a, st1, t1) := m st in
    let '(b, st2, t2) := k a st1 in
    (b, st2, t1 ++ t2).

Definition emit (e : event) : M unit := fun st => (tt, st, [e]).
Definition emits (t : trace) : M unit := fun st => (tt, st, t).
Definition read {A} (f : state -> A) : M A := fun st => (f st, st, []).
Definition write (f : state -> state) : M unit := fun st => (tt, f st, []).

(** A call into a collaborator. *)
Definition extern {A} (f : W -> A * W) : M A :=
  fun st => let '(a, w) := f (world st) in (a, set_world w st, []).

Notation "x <- m ;; k" := (bind m (fun x => k))
  (at level 61, m at next level, right associativity).
Notation "m ;; k" := (bind m (fun _ => k))
  (at level 61, right associativity).

Definition ESP_LOGI (fmt : string) (args : list arg) : M unit :=
  emit (ESP_LOG LOG_INFO TAG fmt args).
Definition ESP_LOGE (fmt : string) (args : list arg) : M unit :=
  emit (ESP_LOG LOG_ERROR TAG fmt args).
Definition printf (fmt : string) (args : list arg) : M unit :=
  emit (Printf fmt args).

Definition do_timer : M Z :=
  t <- extern esp_timer_get_time ;; emit (Call_timer t) ;; ret t.

Definition do_close (db : sqlite3_ptr) : M Z :=
  r <- extern (sqlite3_close db) ;; emit (Call_sqlite3_close db) ;; ret r.

Definition do_errmsg (db : sqlite3_ptr) : M string :=
  m <- extern (sqlite3_errmsg db) ;; emit (Call_sqlite3_errmsg db) ;; ret m.

Definition do_free (p : cstr) : M unit :=
  extern (fun w => (tt, sqlite3_free p w)) ;; emit (Call_sqlite3_free p).

Definition do_unlink (path : string) : M Z :=
  r <- extern (unlink path) ;; emit (Call_unlink path) ;; ret r.

(** [sqlite3_open(filename, db)]: the status, and the handle stored through
    the second argument. *)
Definition do_open (filename : string) : M (Z * sqlite3_ptr) :=
  r <- extern (sqlite3_open filename) ;;
  emit (Call_sqlite3_open filename (fst r) (snd r)) ;;
  ret r.

(** [sqlite3_exec(db, sql, callback, (void* )data, &zErrMsg)]: the rows go
    through [callback] while the call runs; [zErrMsg] receives the message
    pointer. *)
Definition do_exec (db : sqlite3_ptr) (sql : string) : M Z :=
  r <- extern (sqlite3_exec db sql) ;;
  emit (Call_sqlite3_exec db sql (exec_rc r)) ;;
  emits (flat_map deliver_row (exec_rows r)) ;;
  write (set_zErrMsg (exec_errmsg r)) ;;
  ret (exec_rc r).

(** [int db_open(const char *filename, sqlite3 **db)], the second argument
    given as the setter of the global it points at. *)
Definition db_open (filename : string) (set_db : sqlite3_ptr -> state -> state)
  : M Z :=
  r <- do_open filename ;;
  write (set_db (snd r)) ;;
  let rc := fst r in
  if negb (rc =? 0) then
    m <- do_errmsg (snd r) ;;
    printf (lit "Can't open database: %s\n") [AStr (Some m)] ;;
    ret rc
  else
    printf (lit "Opened database successfully\n") [] ;;
    ret rc.

(** [int db_exec(sqlite3 *db, const char *sql)] *)
Definition db_exec (db : sqlite3_ptr) (sql : string) : M Z :=
  printf (lit "%s\n") [AStr (Some sql)] ;;
  start <- do_timer ;;
  rc <- do_exec db sql ;;
  (if negb (rc =? SQLITE_OK) then
     msg <- read zErrMsg ;;
     printf (lit "SQL error: %s\n") [AStr msg] ;;
     do_free msg
   else
     printf (lit "Operation done successfully\n") []) ;;
  now <- do_timer ;;
  printf (lit "Time taken: %lld\n") [AInt (sub64 now start)] ;;
  ret rc.

(** [sqlite3_close(db1); sqlite3_close(db2);] on the current globals. *)
Definition close_both : M unit :=
  d1 <- read db1 ;; do_close d1 ;;
  d2 <- read db2 ;; do_close d2 ;;
  ret tt.

(** [void create_db()] *)
Definition create_db : M unit :=
  ESP_LOGI "Creating table test1" [] ;;
  d1 <- read db1 ;;
  r <- db_exec d1 "CREATE TABLE test1 (id INTEGER, content);" ;;
  write (set_rc r) ;;
  if negb (r =? SQLITE_OK) then
    close_both
  else
    ESP_LOGI "Creating table test2" [] ;;
    d2 <- read db2 ;;
    r <- db_exec d2 "CREATE TABLE test2 (id INTEGER, content);" ;;
    write (set_rc r) ;;
    if negb (r =? SQLITE_OK) then
      close_both
    else
      ESP_LOGI "Tables created succesfully" [].

(** [void insert_data()] *)
Definition insert_data : M unit :=
  ESP_LOGI "Inserting data in table test1" [] ;;
  d1 <- read db1 ;;
  r <- db_exec d1
         "INSERT INTO test1 VALUES (1, 'Hello, World from test1, ESP-IDF 5.1.1');" ;;
  write (set_rc r) ;;
  if negb (r =? SQLITE_OK) then
    close_both
  else
    ESP_LOGI "Inserting data in table test2" [] ;;
    d2 <- read db2 ;;
    r <- db_exec d2
           "INSERT INTO test2 VALUES (1, 'Hello, World from test2, ESP-IDF 5.1.1');" ;;
    write (set_rc r) ;;
    if negb (r =? SQLITE_OK) then
      close_both
    else
      ret tt.

(** [void select_data()] *)
Definition select_data : M unit :=
  ESP_LOGI "Selecting data from test1" [] ;;
  d1 <- read db1 ;;
  r <- db_exec d1 "SELECT * FROM test1" ;;
  write (set_rc r) ;;
  if negb (r =? SQLITE_OK) then
    close_both
  else
    ESP_LOGI "Selecting data from test2" [] ;;
    d2 <- read db2 ;;
    r <- db_exec d2 "SELECT * FROM test2" ;;
    write (set_rc r) ;;
    if negb (r =? SQLITE_OK) then
      close_both
    else
      ret tt.

(** The [conf] local of [app_main]. *)
Definition conf : esp_vfs_spiffs_conf_t :=
  {| base_path := "/spiffs";
     partition_label := None;
     max_files := 5;
     format_if_mount_failed := true |}.

(** [void app_main()] from the first [unlink] to its last line (lines 258
    to 291 of spiffs.c): the part that runs once the filesystem is
    mounted. *)
Definition database_phase : M unit :=
  do_unlink "/spiffs/test1.db" ;;
  do_unlink "/spiffs/test2.db" ;;
  extern sqlite3_initialize ;; emit Call_sqlite3_initialize ;;
  ESP_LOGI "Opening table test1" [] ;;
  o1 <- db_open "/spiffs/test1.db" set_db1 ;;
  if negb (o1 =? 0) then ret tt
  else
    ESP_LOGI "Opening table test2" [] ;;
    o2 <- db_open "/spiffs/test2.db" set_db2 ;;
    if negb (o2 =? 0) then ret tt
    else
      create_db ;;
      insert_data ;;
      select_data ;;
      d1 <- read db1 ;; do_close d1 ;;
      d2 <- read db2 ;; do_close d2 ;;
      extern (esp_vfs_spiffs_unregister None) ;;
      emit (Call_spiffs_unregister None) ;;
      ESP_LOGI "SPIFFS unmounted" [].

(** [void app_main()]: the mount and the usage query, then
    [database_phase]. *)
Definition app_main : M unit :=
  ESP_LOGI "Initializing SPIFFS" [] ;;
  ret0 <- extern (esp_vfs_spiffs_register conf) ;;
  emit (Call_spiffs_register conf ret0) ;;
  if negb (ret0 =? ESP_OK) then
    (if ret0 =? ESP_FAIL then
       ESP_LOGE "Failed to mount or format filesystem" []
     else if ret0 =? ESP_ERR_NOT_FOUND then
       ESP_LOGE "Failed to find SPIFFS partition" []
     else
       ESP_LOGE "Failed to initialize SPIFFS (%s)"
                [AStr (Some (esp_err_to_name ret0))])
  else
    info <- extern (esp_spiffs_info None) ;;
    let '(ret1, total, used) := info in
    emit (Call_spiffs_info None ret1 total used) ;;
    (if negb (ret1 =? ESP_OK) then
       ESP_LOGE "Failed to get SPIFFS partition information (%s)"
                [AStr (Some (esp_err_to_name ret1))]
     else
       ESP_LOGI "Partition size: total: %d, used: %d" [AInt total; AInt used]) ;;
    database_phase.

(** Process start: the globals are zero-initialised. *)
Definition boot (w : W) : state :=
  {| world := w; zErrMsg := None; db1 := 0; db2 := 0; rc := 0 |}.

(** One run of the program on the world [w], and what it did. *)
Definition run (w : W) : unit * state * trace := app_main (boot w).
Definition trace_of (w : W) : trace := snd (run w).

End Program.

Arguments state : clear implicits.
Arguments M : clear implicits.
Arguments db_exec : simpl never.
Arguments db_open : simpl never.
Arguments close_both : simpl never.
Arguments create_db : simpl never.
Arguments insert_data : simpl never.
Arguments select_data : simpl never.
Arguments database_phase : simpl never.
Arguments lit : simpl never.
Arguments sub64 : simpl never.

(** ** Observing a trace *)

(** What the Row Reporter is specified to print for one row: the label,
    one "name = value" line per column with the NULL marker for an absent
    value, and an empty line. *)
Definition newline : string := String (ascii_of_nat 10) "".

Definition null_marker (v : cstr) : string :=
  match v with
  | Some s => s
  | None => "NULL"
  end.

Definition column_text (c : string * cstr) : string :=
  (fst c ++ " = " ++ null_marker (snd c) ++ newline)%string.

Definition row_text (label : string) (columns : list (string * cstr)) : string :=
  (label ++ ": " ++ newline
     ++ String.concat "" (map column_text columns) ++ newline)%string.

(** The [printf] of one loop iteration of [callback]. *)
Definition column_event (c : cstr * cstr) : event :=
  Printf (lit "%s = %s\n") [AStr (fst c); AStr (Some (null_marker (snd c)))].

(** The calls that make up the run's life cycle: mount, usage query, file
    removal, engine start, open, statement execution, close, unmount. *)
Definition is_call (e : event) : bool :=
  match e with
  | Call_spiffs_register _ _ | Call_spiffs_info _ _ _ _ | Call_unlink _
  | Call_sqlite3_initialize | Call_sqlite3_open _ _ _
  | Call_sqlite3_exec _ _ _ | Call_sqlite3_close _
  | Call_spiffs_unregister _ => true
  | _ => false
  end.

Definition calls (tr : trace) : trace := filter is_call tr.

(** The handles [sqlite3_close] was called on, in order. *)
Definition closes (tr : trace) : list sqlite3_ptr :=
  flat_map (fun e => match e with Call_sqlite3_close d => [d] | _ => [] end) tr.

(** The [sqlite3_open] calls: file name, status, handle. *)
Definition opens (tr : trace) : list (string * Z * sqlite3_ptr) :=
  flat_map (fun e => match e with
                     | Call_sqlite3_open f r d => [(f, r, d)]
                     | _ => []
                     end) tr.

(** The handles of the opens that succeeded. *)
Definition opened (tr : trace) : list sqlite3_ptr :=
  flat_map (fun o => if snd (fst o) =? 0 then [snd o] else []) (opens tr).

(** The [sqlite3_exec] calls: handle, statement, status. *)
Definition execs (tr : trace) : list (sqlite3_ptr * string * Z) :=
  flat_map (fun e => match e with
                     | Call_sqlite3_exec d s r => [(d, s, r)]
                     | _ => []
                     end) tr.

(** The paths [unlink] was called on. *)
Definition unlinks (tr : trace) : list string :=
  flat_map (fun e => match e with Call_unlink p => [p] | _ => [] end) tr.

(** The statuses of the mount calls, and the number of unmounts. *)
Definition mounts (tr : trace) : list Z :=
  flat_map (fun e => match e with
                     | Call_spiffs_register _ r => [r]
                     | _ => []
                     end) tr.

Definition unmounts (tr : trace) : nat :=
  List.length (filter (fun e => match e with
                                | Call_spiffs_unregister _ => true
                                | _ => false
                                end) tr).

Section Observers.

Context {W : Type} {P : Platform W}.

(** A step that reports success: the mount returns [ESP_OK], an open 0, a
    statement [SQLITE_OK].  Other events carry no status the program
    checks. *)
Definition step_ok (e : event) : bool :=
  match e with
  | Call_spiffs_register _ r => r =? ESP_OK
  | Call_sqlite3_open _ r _ => r =? 0
  | Call_sqlite3_exec _ _ r => r =? SQLITE_OK
  | _ => true
  end.

(** What [db_exec] emits, given the two clock readings and what the engine
    handed back. *)
Definition db_exec_trace (db : sqlite3_ptr) (sql : string) (start now : Z)
    (r : exec_result) : trace :=
  [Printf (lit "%s\n") [AStr (Some sql)];
   Call_timer start;
   Call_sqlite3_exec db sql (exec_rc r)]
  ++ flat_map deliver_row (exec_rows r)
  ++ (if exec_rc r =? SQLITE_OK
      then [Printf (lit "Operation done successfully\n") []]
      else [Printf (lit "SQL error: %s\n") [AStr (exec_errmsg r)];
            Call_sqlite3_free (exec_errmsg r)])
  ++ [Call_timer now;
      Printf (lit "Time taken: %lld\n") [AInt (sub64 now start)]].

(** What [db_open] emits, given what [sqlite3_open] handed back and, on
    failure, the text [sqlite3_errmsg] returned. *)
Definition db_open_trace (filename : string) (o : Z * sqlite3_ptr)
    (msg : string) : trace :=
  Call_sqlite3_open filename (fst o) (snd o) ::
  (if fst o =? 0
   then [Printf (lit "Opened database successfully\n") []]
   else [Call_sqlite3_errmsg (snd o);
         Printf (lit "Can't open database: %s\n") [AStr (Some msg)]]).

(** The life-cycle calls of one two-database step: the statement on the
    first database, then either the cleanup or the statement on the second
    database, followed by the cleanup when that one fails. *)
Definition pair_calls (d1 d2 : sqlite3_ptr) (s1 s2 : string) (r1 r2 : Z)
  : trace :=
  Call_sqlite3_exec d1 s1 r1 ::
  (if r1 =? SQLITE_OK then
     Call_sqlite3_exec d2 s2 r2 ::
     (if r2 =? SQLITE_OK then []
      else [Call_sqlite3_close d1; Call_sqlite3_close d2])
   else [Call_sqlite3_close d1; Call_sqlite3_close d2]).

Definition sql_create1 : string := "CREATE TABLE test1 (id INTEGER, content);".
Definition sql_create2 : string := "CREATE TABLE test2 (id INTEGER, content);".
Definition sql_insert1 : string :=
  "INSERT INTO test1 VALUES (1, 'Hello, World from test1, ESP-IDF 5.1.1');".
Definition sql_insert2 : string :=
  "INSERT INTO test2 VALUES (1, 'Hello, World from test2, ESP-IDF 5.1.1');".
Definition sql_select1 : string := "SELECT * FROM test1".
Definition sql_select2 : string := "SELECT * FROM test2".

(** The statuses of the six statements, in program order. *)
Record statuses := {
  rc_create1 : Z; rc_create2 : Z;
  rc_insert1 : Z; rc_insert2 : Z;
  rc_select1 : Z; rc_select2 : Z
}.

Definition no_statuses : statuses :=
  {| rc_create1 := 0; rc_create2 := 0; rc_insert1 := 0;
     rc_insert2 := 0; rc_select1 := 0; rc_select2 := 0 |}.

(** The life-cycle calls from [create_db] to the end of [app_main]. *)
Definition steps_calls (d1 d2 : sqlite3_ptr) (rs : statuses) : trace :=
  pair_calls d1 d2 sql_create1 sql_create2 (rc_create1 rs) (rc_create2 rs)
  ++ pair_calls d1 d2 sql_insert1 sql_insert2 (rc_insert1 rs) (rc_insert2 rs)
  ++ pair_calls d1 d2 sql_select1 sql_select2 (rc_select1 rs) (rc_select2 rs)
  ++ [Call_sqlite3_close d1; Call_sqlite3_close d2;
      Call_spiffs_unregister None].

(** The life-cycle calls of [database_phase], given what the two opens and
    the six statements return. *)
Definition phase_calls (o1 o2 : Z * sqlite3_ptr) (rs : statuses) : trace :=
  Call_unlink "/spiffs/test1.db" :: Call_unlink "/spiffs/test2.db" ::
  Call_sqlite3_initialize ::
  Call_sqlite3_open "/spiffs/test1.db" (fst o1) (snd o1) ::
  (if fst o1 =? 0 then
     Call_sqlite3_open "/spiffs/test2.db" (fst o2) (snd o2) ::
     (if fst o2 =? 0 then steps_calls (snd o1) (snd o2) rs else [])
   else []).

(** What [database_phase] emits, given what the opens handed back and the
    events of the part from [create_db] to the end. *)
Definition phase_trace (o1 o2 : Z * sqlite3_ptr) (msg1 msg2 : string)
    (steps : trace) : trace :=
  [Call_unlink "/spiffs/test1.db"; Call_unlink "/spiffs/test2.db";
   Call_sqlite3_initialize;
   ESP_LOG LOG_INFO TAG "Opening table test1" []]
  ++ db_open_trace "/spiffs/test1.db" o1 msg1
  ++ (if fst o1 =? 0 then
        ESP_LOG LOG_INFO TAG "Opening table test2" []
        :: db_open_trace "/spiffs/test2.db" o2 msg2
        ++ (if fst o2 =? 0 then steps else [])
      else []).

(** The life-cycle calls of a whole run. *)
Definition run_calls (ret0 : Z) (info : Z * Z * Z) (o1 o2 : Z * sqlite3_ptr)
    (rs : statuses) : trace :=
  Call_spiffs_register conf ret0 ::
  (if ret0 =? ESP_OK then
     Call_spiffs_info None (fst (fst info)) (snd (fst info)) (snd info) ::
     phase_calls o1 o2 rs
   else []).

(** The log line that follows the mount, by failure kind. *)
Definition mount_failure_log (ret0 : Z) : event :=
  if ret0 =? ESP_FAIL then
    ESP_LOG LOG_ERROR TAG "Failed to mount or format filesystem" []
  else if ret0 =? ESP_ERR_NOT_FOUND then
    ESP_LOG LOG_ERROR TAG "Failed to find SPIFFS partition" []
  else
    ESP_LOG LOG_ERROR TAG "Failed to initialize SPIFFS (%s)"
            [AStr (Some (esp_err_to_name ret0))].

(** The log line that follows the usage query. *)
Definition info_log (ret1 total used : Z) : event :=
  if ret1 =? ESP_OK then
    ESP_LOG LOG_INFO TAG "Partition size: total: %d, used: %d"
            [AInt total; AInt used]
  else
    ESP_LOG LOG_ERROR TAG "Failed to get SPIFFS partition information (%s)"
            [AStr (Some (esp_err_to_name ret1))].

(** What a whole run emits. *)
Definition run_trace (ret0 : Z) (info : Z * Z * Z) (o1 o2 : Z * sqlite3_ptr)
    (msg1 msg2 : string) (steps : trace) : trace :=
  [ESP_LOG LOG_INFO TAG "Initializing SPIFFS" [];
   Call_spiffs_register conf ret0]
  ++ (if ret0 =? ESP_OK then
        [Call_spiffs_info None (fst (fst info)) (snd (fst info)) (snd info);
         info_log (fst (fst info)) (snd (fst info)) (snd info)]
        ++ phase_trace o1 o2 msg1 msg2 steps
      else [mount_failure_log ret0]).

End Observers.

(** The same platform, except that the usage query reports success: it
    still returns the sizes and leaves the world as the original does. *)
Definition usage_query_ok {W : Type} (P : Platform W) : Platform W := {|
  ESP_OK := ESP_OK;
  ESP_FAIL := ESP_FAIL;
  ESP_ERR_NOT_FOUND := ESP_ERR_NOT_FOUND;
  SQLITE_OK := SQLITE_OK;
  esp_vfs_spiffs_register := esp_vfs_spiffs_register;
  esp_spiffs_info := fun label w =>
    ((ESP_OK, snd (fst (fst (esp_spiffs_info label w))),
      snd (fst (esp_spiffs_info label w))),
     snd (esp_spiffs_info label w));
  esp_vfs_spiffs_unregister := esp_vfs_spiffs_unregister;
  esp_err_to_name := esp_err_to_name;
  esp_timer_get_time := esp_timer_get_time;
  unlink := unlink;
  sqlite3_initialize := sqlite3_initialize;
  sqlite3_open := sqlite3_open;
  sqlite3_errmsg := sqlite3_errmsg;
  sqlite3_exec := sqlite3_exec;
  sqlite3_free := sqlite3_free;
  sqlite3_close := sqlite3_close
|}.

(** ** A scripted collaborator

    A fake platform for concrete runs: the mount and usage statuses are
    fixed, opens and statements answer from scripts, the clock advances by
    7 microseconds per reading.  The header constants have their ESP-IDF and
    SQLite values. *)
Module Fake.

Record world := {
  mount_ret : Z;
  info_ret : Z * Z * Z;
  open_script : list (Z * sqlite3_ptr);
  exec_script : list exec_result;
  clock : Z
}.

Definition tick (w : world) : world :=
  {| mount_ret := mount_ret w; info_ret := info_ret w;
     open_script := open_script w; exec_script := exec_script w;
     clock := clock w + 7 |}.

Definition pop_open (w : world) : (Z * sqlite3_ptr) * world :=
  match open_script w with
  | o :: rest =>
      (o, {| mount_ret := mount_ret w; info_ret := info_ret w;
             open_script := rest; exec_script := exec_script w;
             clock := clock w |})
  | [] => ((14, 0), w)
  end.

Definition pop_exec (w : world) : exec_result * world :=
  match exec_script w with
  | r :: rest =>
      (r, {| mount_ret := mount_ret w; info_ret := info_ret w;
             open_script := open_script w; exec_script := rest;
             clock := clock w |})
  | [] => ({| exec_rc := 21; exec_rows := [];
              exec_errmsg := Some "bad parameter or other API misuse" |}, w)
  end.

Definition platform : Platform world := {|
  ESP_OK := 0;
  ESP_FAIL := -1;
  ESP_ERR_NOT_FOUND := 261;
  SQLITE_OK := 0;
  esp_vfs_spiffs_register := fun _ w => (mount_ret w, w);
  esp_spiffs_info := fun _ w => (info_ret w, w);
  esp_vfs_spiffs_unregister := fun _ w => (0, w);
  esp_err_to_name := fun _ => "ERROR";
  esp_timer_get_time := fun w => (clock w, tick w);
  unlink := fun _ w => (0, w);
  sqlite3_initialize := fun w => (0, w);
  sqlite3_open := fun _ w => pop_open w;
  sqlite3_errmsg := fun _ w => ("unable to open database file", w);
  sqlite3_exec := fun _ _ w => pop_exec w;
  sqlite3_free := fun _ w => w;
  sqlite3_close := fun _ w => (0, w)
|}.

Definition ok : exec_result :=
  {| exec_rc := 0; exec_rows := []; exec_errmsg := None |}.
Definition rows (r : list (list (string * cstr))) : exec_result :=
  {| exec_rc := 0; exec_rows := r; exec_errmsg := None |}.
Definition err (msg : string) : exec_result :=
  {| exec_rc := 1; exec_rows := []; exec_errmsg := Some msg |}.

Definition script (m : Z) (i : Z * Z * Z) (o : list (Z * sqlite3_ptr))
    (e : list exec_result) : world :=
  {| mount_ret := m; info_ret := i; open_script := o; exec_script := e;
     clock := 100 |}.

(** Every step succeeds; each SELECT returns the inserted row. *)
Definition all_good : world :=
  script 0 (0, 1000, 10) [(0, 1); (0, 2)]
    [ok; ok; ok; ok;
     rows [[("id", Some "1");
            ("content", Some "Hello, World from test1, ESP-IDF 5.1.1")]];
     rows [[("id", Some "1");
            ("content", Some "Hello, World from test2, ESP-IDF 5.1.1")]]].

(** The first CREATE TABLE fails, every later statement succeeds. *)
Definition create1_fails : world :=
  script 0 (0, 1000, 10) [(0, 1); (0, 2)]
    [err "table test1 already exists"; ok; ok; ok; ok].

(** The first CREATE TABLE fails and the script ends there: every later
    statement, executed on a closed handle, is refused with
    SQLITE_MISUSE. *)
Definition create1_fails_then_misuse : world :=
  script 0 (0, 1000, 10) [(0, 1); (0, 2)]
    [err "table test1 already exists"].

(** The mount fails: no SPIFFS partition. *)
Definition no_partition : world :=
  script 261 (0, 0, 0) [] [].

(** The first open succeeds, the second fails with SQLITE_CANTOPEN. *)
Definition open2_fails : world :=
  script 0 (0, 1000, 10) [(0, 1); (14, 2)] [].

(** The usage query fails, everything else succeeds. *)
Definition info_fails : world :=
  script 0 (-1, 0, 0) [(0, 1); (0, 2)] [ok; ok; ok; ok; ok; ok].

(** A statement execution that fails, from a fresh state. *)
Definition failing_statement : state world :=
  boot (script 0 (0, 0, 0) [] [err "no such table: test3"]).

(** The run on the fake platform. *)
Definition trace_of (w : world) : trace := @trace_of world platform w.

(** The first open fails with SQLITE_CANTOPEN and leaves a NULL handle. *)
Definition open1_fails : world :=
  script 0 (0, 1000, 10) [(14, 0)] [].

(** Both tables are created; the INSERT into the first one fails, the
    statements after it succeed. *)
Definition insert1_fails : world :=
  script 0 (0, 1000, 10) [(0, 1); (0, 2)]
    [ok; ok; err "database or disk is full"; ok; ok].

(** Only the last statement, the SELECT on the second database, fails. *)
Definition select2_fails : world :=
  script 0 (0, 1000, 10) [(0, 1); (0, 2)]
    [ok; ok; ok; ok; ok; err "no such table: test2"].

End Fake.

(** ** Observing a run in full *)

(** The pointers handed to [sqlite3_free], and the clock readings. *)
Definition frees (tr : trace) : list cstr :=
  flat_map (fun e => match e with Call_sqlite3_free p => [p] | _ => [] end) tr.

Definition timers (tr : trace) : list Z :=
  flat_map (fun e => match e with Call_timer t => [t] | _ => [] end) tr.

(** What one [db_exec] call observed: the two clock readings and what the
    engine handed back. *)
Record exec_obs := {
  ob_start : Z;
  ob_now : Z;
  ob_result : exec_result
}.

Definition ob_rc (e : exec_obs) : Z := exec_rc (ob_result e).

(** The observations of the six statements, in program order. *)
Record observations := {
  ob_create1 : exec_obs; ob_create2 : exec_obs;
  ob_insert1 : exec_obs; ob_insert2 : exec_obs;
  ob_select1 : exec_obs; ob_select2 : exec_obs
}.

Section Observations.

Context {W : Type} {P : Platform W}.

Definition no_observation : exec_obs :=
  {| ob_start := 0; ob_now := 0;
     ob_result := {| exec_rc := 0; exec_rows := []; exec_errmsg := None |} |}.

Definition no_observations : observations :=
  {| ob_create1 := no_observation; ob_create2 := no_observation;
     ob_insert1 := no_observation; ob_insert2 := no_observation;
     ob_select1 := no_observation; ob_select2 := no_observation |}.

(** The statements of a trace that did not return [SQLITE_OK]. *)
Definition failed_execs (tr : trace) : list (sqlite3_ptr * string * Z) :=
  filter (fun e => negb (snd e =? SQLITE_OK)) (execs tr).

Definition exec_events (db : sqlite3_ptr) (sql : string) (e : exec_obs)
  : trace :=
  db_exec_trace db sql (ob_start e) (ob_now e) (ob_result e).

(** What a two-database step emits: [log1] and [log2] are its log lines,
    [done] what it emits after two successes. *)
Definition step_trace (log1 log2 : string) (done : trace)
    (d1 d2 : sqlite3_ptr) (s1 s2 : string) (e1 e2 : exec_obs) : trace :=
  ESP_LOG LOG_INFO TAG log1 [] :: exec_events d1 s1 e1
  ++ (if ob_rc e1 =? SQLITE_OK then
        ESP_LOG LOG_INFO TAG log2 [] :: exec_events d2 s2 e2
        ++ (if ob_rc e2 =? SQLITE_OK then done
            else [Call_sqlite3_close d1; Call_sqlite3_close d2])
      else [Call_sqlite3_close d1; Call_sqlite3_close d2]).

Definition create_db_trace (d1 d2 : sqlite3_ptr) (e1 e2 : exec_obs) : trace :=
  step_trace "Creating table test1" "Creating table test2"
             [ESP_LOG LOG_INFO TAG "Tables created succesfully" []]
             d1 d2 sql_create1 sql_create2 e1 e2.

Definition insert_data_trace (d1 d2 : sqlite3_ptr) (e1 e2 : exec_obs) : trace :=
  step_trace "Inserting data in table test1" "Inserting data in table test2"
             [] d1 d2 sql_insert1 sql_insert2 e1 e2.

Definition select_data_trace (d1 d2 : sqlite3_ptr) (e1 e2 : exec_obs) : trace :=
  step_trace "Selecting data from test1" "Selecting data from test2"
             [] d1 d2 sql_select1 sql_select2 e1 e2.

(** The status a step leaves in the global [rc]: that of the last
    statement it executed. *)
Definition step_rc (e1 e2 : exec_obs) : Z :=
  if ob_rc e1 =? SQLITE_OK then ob_rc e2 else ob_rc e1.

(** The message pointer a step leaves in [zErrMsg]. *)
Definition step_errmsg (e1 e2 : exec_obs) : cstr :=
  if ob_rc e1 =? SQLITE_OK then exec_errmsg (ob_result e2)
  else exec_errmsg (ob_result e1).

(** What [app_main] emits from [create_db] to its end. *)
Definition steps_trace (d1 d2 : sqlite3_ptr) (es : observations) : trace :=
  create_db_trace d1 d2 (ob_create1 es) (ob_create2 es)
  ++ insert_data_trace d1 d2 (ob_insert1 es) (ob_insert2 es)
  ++ select_data_trace d1 d2 (ob_select1 es) (ob_select2 es)
  ++ [Call_sqlite3_close d1; Call_sqlite3_close d2;
      Call_spiffs_unregister None;
      ESP_LOG LOG_INFO TAG "SPIFFS unmounted" []].

(** The statements of one step: the second one is executed exactly when
    the first one succeeded. *)
Definition step_execs (d1 d2 : sqlite3_ptr) (s1 s2 : string) (r1 r2 : Z)
  : list (sqlite3_ptr * string * Z) :=
  (d1, s1, r1) :: (if r1 =? SQLITE_OK then [(d2, s2, r2)] else []).

(** What one statement execution writes to standard output. *)
Definition exec_text (sql : string) (e : exec_obs) : string :=
  (sql ++ newline
   ++ String.concat ""
        (map (row_text "Callback function called")
             (exec_rows (ob_result e)))
   ++ (if Z.eqb (ob_rc e) SQLITE_OK
       then "Operation done successfully" ++ newline
       else "SQL error: " ++ show_arg (AStr (exec_errmsg (ob_result e)))
            ++ newline)
   ++ "Time taken: "
   ++ NilZero.string_of_int (Z.to_int (sub64 (ob_now e) (ob_start e)))
   ++ newline)%string.

End Observations.

(** ** The filesystem seen through the calls of [app_main] *)

Section Filesystem.

Context {W : Type} {P : Platform W}.

(** The worlds in which [app_main], once the mount has succeeded, makes its
    calls in turn: the first [unlink] follows the usage query, the second
    the first, then come [sqlite3_initialize] and the open of the first
    database and, when that one succeeds, the open of the second. *)
Definition world_at_unlink1 (w : W) : W :=
  snd (esp_spiffs_info None (snd (esp_vfs_spiffs_register conf w))).

Definition world_at_unlink2 (w : W) : W :=
  snd (unlink "/spiffs/test1.db" (world_at_unlink1 w)).

Definition world_at_initialize (w : W) : W :=
  snd (unlink "/spiffs/test2.db" (world_at_unlink2 w)).

Definition world_at_open1 (w : W) : W :=
  snd (sqlite3_initialize (world_at_initialize w)).

Definition world_at_open2 (w : W) : W :=
  snd (sqlite3_open "/spiffs/test1.db" (world_at_open1 w)).

(** What the two opens of a run return. *)
Definition open1_result (w : W) : Z * sqlite3_ptr :=
  fst (sqlite3_open "/spiffs/test1.db" (world_at_open1 w)).

Definition open2_result (w : W) : Z * sqlite3_ptr :=
  fst (sqlite3_open "/spiffs/test2.db" (world_at_open2 w)).

(** What a view [file_exists] of the world as a filesystem must satisfy:
    an [unlink] that returns 0 has removed its path; no [unlink] brings an
    absent path into existence, nor does [sqlite3_initialize], nor the
    open of another path. *)
Definition filesystem_laws (file_exists : W -> string -> bool) : Prop :=
  (forall w p, fst (unlink p w) = 0 ->
               file_exists (snd (unlink p w)) p = false) /\
  (forall w p q, file_exists w p = false ->
                 file_exists (snd (unlink q w)) p = false) /\
  (forall w p, file_exists w p = false ->
               file_exists (snd (sqlite3_initialize w)) p = false) /\
  (forall w p q, p <> q -> file_exists w p = false ->
                 file_exists (snd (sqlite3_open q w)) p = false).

(** Neither open of the run on [w] finds a file at its path. *)
Definition fresh_opens (file_exists : W -> string -> bool) (w : W) : Prop :=
  file_exists (world_at_open1 w) "/spiffs/test1.db" = false /\
  file_exists (world_at_open2 w) "/spiffs/test2.db" = false.

End Filesystem.

(** ** A scripted filesystem

    A fake platform with files: [unlink] removes an existing file when the
    filesystem lets it and fails otherwise, [sqlite3_open] creates the file
    it does not find and numbers its handles; everything else succeeds. *)
Module FakeFS.

Record world := {
  files : list string;
  unlink_works : bool;
  handles : Z
}.

Definition file_exists (w : world) (p : string) : bool :=
  existsb (String.eqb p) (files w).

Definition remove_file (p : string) (w : world) : Z * world :=
  if unlink_works w && file_exists w p then
    (0, {| files := filter (fun f => negb (String.eqb p f)) (files w);
           unlink_works := unlink_works w;
           handles := handles w |})
  else (-1, w).

Definition open_file (p : string) (w : world) : (Z * sqlite3_ptr) * world :=
  ((0, handles w + 1),
   {| files := if file_exists w p then files w else p :: files w;
      unlink_works := unlink_works w;
      handles := handles w + 1 |}).

Definition platform : Platform world := {|
  ESP_OK := 0;
  ESP_FAIL := -1;
  ESP_ERR_NOT_FOUND := 261;
  SQLITE_OK := 0;
  esp_vfs_spiffs_register := fun _ w => (0, w);
  esp_spiffs_info := fun _ w => ((0, 1000, 10), w);
  esp_vfs_spiffs_unregister := fun _ w => (0, w);
  esp_err_to_name := fun _ => "ERROR";
  esp_timer_get_time := fun w => (0, w);
  unlink := remove_file;
  sqlite3_initialize := fun w => (0, w);
  sqlite3_open := open_file;
  sqlite3_errmsg := fun _ w => ("not an error", w);
  sqlite3_exec := fun _ _ w =>
    ({| exec_rc := 0; exec_rows := []; exec_errmsg := None |}, w);
  sqlite3_free := fun _ w => w;
  sqlite3_close := fun _ w => (0, w)
|}.

(** Both database files are left from an earlier run. *)
Definition leftover : world :=
  {| files := ["/spiffs/test1.db"; "/spiffs/test2.db"];
     unlink_works := true; handles := 0 |}.

(** The first database file is left from an earlier run, and the
    filesystem refuses to remove it. *)
Definition stale : world :=
  {| files := ["/spiffs/test1.db"]; unlink_works := false; handles := 0 |}.

End FakeFS.

(** ** The Row Reporter *)

Lemma string_app_assoc (a b c : string) :
  ((a ++ b) ++ c = a ++ (b ++ c))%string.
Proof. induction a as [|x a IH]; simpl; [reflexivity | now rewrite IH]. Qed.

Lemma string_app_nil_r (a : string) : (a ++ "")%string = a.
Proof. induction a as [|x a IH]; simpl; [reflexivity | now rewrite IH]. Qed.

Lemma stdout_app (a b : trace) :
  stdout (a ++ b) = (stdout a ++ stdout b)%string.
Proof.
  induction a as [|e a IH]; simpl; [reflexivity|].
  destruct e; simpl; auto.
  rewrite IH. symmetry. apply string_app_assoc.
Qed.

Lemma callback_loop_columns (values : list cstr) :
  forall (names seen_values seen_names : list cstr),
    List.length seen_values = List.length seen_names ->
    List.length values = List.length names ->
    callback_loop (List.length values) (List.length seen_values)
                  (seen_values ++ values) (seen_names ++ names)
    = Some (map column_event (combine names values)).
Proof.
  induction values as [|v values IH]; intros names sv sn Hseen Hlen.
  - destruct names; reflexivity.
  - destruct names as [|n names]; [discriminate|].
    simpl in Hlen. injection Hlen as Hlen.
    cbn [List.length callback_loop].
    rewrite Hseen at 1.
    rewrite !nth_error_app2 by (rewrite ?Hseen; apply Nat.le_refl).
    rewrite Hseen, Nat.sub_diag. cbn [nth_error].
    specialize (IH names (sv ++ [v]) (sn ++ [n])).
    rewrite !length_app in IH. cbn [List.length] in IH.
    rewrite !Nat.add_1_r in IH. rewrite <- !app_assoc in IH. cbn [app] in IH.
    rewrite <- Hseen. rewrite IH by congruence.
    cbn [combine map]. unfold column_event at 2. cbn [fst snd].
    destruct v; reflexivity.
Qed.

Lemma callback_events (label : cstr) (names values : list cstr) :
  List.length names = List.length values ->
  callback label (Z.of_nat (List.length values)) values names
  = Some (0, Printf (lit "%s: \n") [AStr label]
               :: map column_event (combine names values)
               ++ [Printf (lit "\n") []]).
Proof.
  intros Hlen. unfold callback. rewrite Nat2Z.id.
  pose proof (callback_loop_columns values names [] [] eq_refl (eq_sym Hlen))
    as Hloop.
  cbn [app List.length] in Hloop. rewrite Hloop. reflexivity.
Qed.

Lemma stdout_columns (names : list string) :
  forall values : list cstr,
    stdout (map column_event (combine (map Some names) values))
    = String.concat "" (map column_text (combine names values)).
Proof.
  induction names as [|n names IH]; intros [|v values]; try reflexivity.
  cbn [map combine].
  change (stdout (column_event (Some n, v) :: ?t))
    with (column_text (n, v) ++ stdout t)%string.
  rewrite IH.
  destruct (map column_text (combine names values)) as [|c l] eqn:E;
    cbn [String.concat].
  - apply string_app_nil_r.
  - reflexivity.
Qed.

(** C3.  The Row Reporter, called with any label and with a column-name
    array and a column-value array of one length, returns 0 and prints the
    label once, then for each column in index order its name, " = " and its
    value, with the text NULL for an absent value (never the empty text),
    then an empty line.  The output is a function of these inputs alone:
    [callback] reads no global and no collaborator. *)
Theorem callback_reports_row (label : string) (names : list string)
    (values : list cstr) :
  List.length names = List.length values ->
  exists out,
    callback (Some label) (Z.of_nat (List.length values)) values
             (map Some names) = Some (0, out) /\
    out = Printf (lit "%s: \n") [AStr (Some label)]
            :: map column_event (combine (map Some names) values)
            ++ [Printf (lit "\n") []] /\
    stdout out = row_text label (combine names values) /\
    null_marker None = "NULL".
Proof.
  intros Hlen. eexists. split; [|split; [reflexivity|split; [|reflexivity]]].
  - apply callback_events. now rewrite length_map.
  - cbn [stdout]. rewrite stdout_app, stdout_columns.
    change (format (lit "%s: \n") [AStr (Some label)])
      with (label ++ (": " ++ newline))%string.
    rewrite string_app_assoc. reflexivity.
Qed.

(** What [sqlite3_exec] makes of one row: the reporter never leaves the
    arrays the engine hands it. *)
Lemma deliver_row_events (row : list (string * cstr)) :
  deliver_row row
  = Printf (lit "%s: \n") [AStr data]
      :: map column_event
             (combine (map (fun c => Some (fst c)) row) (map snd row))
      ++ [Printf (lit "\n") []].
Proof.
  unfold deliver_row.
  rewrite <- (length_map snd row).
  rewrite callback_events by now rewrite !length_map.
  reflexivity.
Qed.

(** ** Projections of a trace *)

Lemma calls_app (a b : trace) : calls (a ++ b) = calls a ++ calls b.
Proof. apply filter_app. Qed.

Lemma calls_column_events (l : list (cstr * cstr)) :
  calls (map column_event l) = [].
Proof. induction l; simpl; auto. Qed.

Lemma calls_deliver_rows (rows : list (list (string * cstr))) :
  calls (flat_map deliver_row rows) = [].
Proof.
  induction rows as [|row rows IH]; [reflexivity|].
  cbn [flat_map]. rewrite calls_app, IH, deliver_row_events.
  cbn [calls filter is_call]. fold (calls (map column_event
    (combine (map (fun c => Some (fst c)) row) (map snd row))
    ++ [Printf (lit "\n") []])).
  rewrite calls_app, calls_column_events. reflexivity.
Qed.

Lemma closes_calls (tr : trace) : closes (calls tr) = closes tr.
Proof.
  unfold closes, calls. induction tr as [|e tr IH]; [reflexivity|].
  destruct e; simpl; rewrite ?IH; reflexivity.
Qed.

Lemma opens_calls (tr : trace) : opens (calls tr) = opens tr.
Proof.
  unfold opens, calls. induction tr as [|e tr IH]; [reflexivity|].
  destruct e; simpl; rewrite ?IH; reflexivity.
Qed.

Lemma execs_calls (tr : trace) : execs (calls tr) = execs tr.
Proof.
  unfold execs, calls. induction tr as [|e tr IH]; [reflexivity|].
  destruct e; simpl; rewrite ?IH; reflexivity.
Qed.

Lemma unmounts_calls (tr : trace) : unmounts (calls tr) = unmounts tr.
Proof.
  unfold unmounts, calls. induction tr as [|e tr IH]; [reflexivity|].
  destruct e; simpl; rewrite ?IH; reflexivity.
Qed.

Lemma unlinks_calls (tr : trace) : unlinks (calls tr) = unlinks tr.
Proof.
  unfold unlinks, calls. induction tr as [|e tr IH]; [reflexivity|].
  destruct e; simpl; rewrite ?IH; reflexivity.
Qed.

Lemma in_calls (e : event) (tr : trace) :
  In e tr -> is_call e = true -> In e (calls tr).
Proof. intros. apply filter_In. auto. Qed.

Section Proofs.

Context {W : Type} {P : Platform W}.

Lemma step_ok_calls (tr : trace) :
  forallb step_ok tr = true -> forallb step_ok (calls tr) = true.
Proof.
  induction tr as [|e tr IH]; [reflexivity|].
  cbn [forallb]. intros H. apply andb_true_iff in H as [He Htr].
  destruct e; cbn [calls filter is_call forallb]; fold (calls tr);
    rewrite ?He; auto.
Qed.

Lemma calls_db_exec_trace db sql start now r :
  calls (db_exec_trace db sql start now r)
  = [Call_sqlite3_exec db sql (exec_rc r)].
Proof.
  unfold db_exec_trace. rewrite !calls_app, calls_deliver_rows.
  destruct (exec_rc r =? SQLITE_OK); reflexivity.
Qed.

(** ** The Timed Statement Executor *)

(** One statement execution, step by step: the first clock reading, the
    engine call, the release of the message on failure, the second clock
    reading. *)
Lemma db_exec_run (db : sqlite3_ptr) (sql : string) (st : state W) :
  exists start now r w1 w2 w3,
    esp_timer_get_time (world st) = (start, w1) /\
    sqlite3_exec db sql w1 = (r, w2) /\
    esp_timer_get_time (if exec_rc r =? SQLITE_OK then w2
                        else sqlite3_free (exec_errmsg r) w2) = (now, w3) /\
    db_exec db sql st
    = (exec_rc r, set_zErrMsg (exec_errmsg r) (set_world w3 st),
       db_exec_trace db sql start now r).
Proof.
  destruct st as [w0 msg0 d1 d2 rc0].
  unfold db_exec, bind, printf, do_timer, do_exec, do_free, bind, extern,
    emit, emits, read, write, ret.
  cbn -[lit sub64 Z.eqb deliver_row].
  destruct (esp_timer_get_time w0) as [start w1] eqn:Estart.
  cbn -[lit sub64 Z.eqb deliver_row].
  destruct (sqlite3_exec db sql w1) as [r w2] eqn:Eexec.
  cbn -[lit sub64 Z.eqb deliver_row].
  unfold db_exec_trace.
  destruct (exec_rc r =? SQLITE_OK) eqn:Erc;
    cbn -[lit sub64 Z.eqb deliver_row].
  - destruct (esp_timer_get_time w2) as [now w3] eqn:Enow.
    exists start, now, r, w1, w2, w3. rewrite Erc.
    repeat split; auto.
    cbn [app]. rewrite ?app_nil_r, <- ?app_assoc. reflexivity.
  - destruct (esp_timer_get_time (sqlite3_free (exec_errmsg r) w2))
      as [now w3] eqn:Enow.
    exists start, now, r, w1, w2, w3. rewrite Erc.
    repeat split; auto.
    cbn [app]. rewrite ?app_nil_r, <- ?app_assoc. reflexivity.
Qed.

Lemma sub64_exact (now start : Z) :
  - 2 ^ 63 <= now - start < 2 ^ 63 -> sub64 now start = now - start.
Proof.
  intros H. unfold sub64, wrap64.
  rewrite Z.mod_small by lia. lia.
Qed.

(** C6.  Any statement execution, whatever the engine returns, first prints
    the statement text, reads the clock, submits the statement, and after
    the call has returned (and its outcome has been reported) reads the
    clock again and prints the elapsed microseconds, the second reading
    minus the first in [int64_t] arithmetic.  The outcome report in the
    middle is the only part that differs between success and failure. *)
Theorem db_exec_prints_statement_and_elapsed_time
    (db : sqlite3_ptr) (sql : string) (st : state W) :
  exists start now r w1 w w',
    esp_timer_get_time (world st) = (start, w1) /\
    sqlite3_exec db sql w1 = (r, w) /\
    esp_timer_get_time (if exec_rc r =? SQLITE_OK then w
                        else sqlite3_free (exec_errmsg r) w) = (now, w') /\
    snd (db_exec db sql st)
    = [Printf (lit "%s\n") [AStr (Some sql)];
       Call_timer start;
       Call_sqlite3_exec db sql (exec_rc r)]
      ++ flat_map deliver_row (exec_rows r)
      ++ (if exec_rc r =? SQLITE_OK
          then [Printf (lit "Operation done successfully\n") []]
          else [Printf (lit "SQL error: %s\n") [AStr (exec_errmsg r)];
                Call_sqlite3_free (exec_errmsg r)])
      ++ [Call_timer now;
          Printf (lit "Time taken: %lld\n") [AInt (sub64 now start)]] /\
    stdout [Printf (lit "Time taken: %lld\n") [AInt (sub64 now start)]]
    = ("Time taken: "
         ++ NilZero.string_of_int (Z.to_int (sub64 now start))
         ++ newline)%string /\
    (sub64 now start = now - start \/
     ~ (- 2 ^ 63 <= now - start < 2 ^ 63)).
Proof.
  destruct (db_exec_run db sql st)
    as (start & now & r & w1 & w2 & w3 & Hstart & Hexec & Hnow & Hrun).
  exists start, now, r, w1, w2, w3.
  rewrite Hrun. repeat split; auto.
  - cbn -[sub64 NilZero.string_of_int Z.to_int].
    now rewrite string_app_nil_r.
  - destruct (Z_le_dec (- 2 ^ 63) (now - start));
      destruct (Z_lt_dec (now - start) (2 ^ 63)); try (right; lia).
    left. apply sub64_exact. lia.
Qed.

(** C5.  A statement execution returns the engine's status unchanged.  When
    that status is not [SQLITE_OK], the message the engine stored in
    [zErrMsg] is printed after "SQL error: " and then handed to
    [sqlite3_free]; when it is [SQLITE_OK], the success line is printed and
    nothing is freed.  The engine is called once. *)
Theorem db_exec_reports_failure_and_returns_status
    (db : sqlite3_ptr) (sql : string) (st : state W) :
  exists r w w' before after,
    sqlite3_exec db sql w = (r, w') /\
    fst (fst (db_exec db sql st)) = exec_rc r /\
    zErrMsg (snd (fst (db_exec db sql st))) = exec_errmsg r /\
    snd (db_exec db sql st)
    = before
      ++ Call_sqlite3_exec db sql (exec_rc r)
         :: flat_map deliver_row (exec_rows r)
      ++ (if exec_rc r =? SQLITE_OK
          then [Printf (lit "Operation done successfully\n") []]
          else [Printf (lit "SQL error: %s\n") [AStr (exec_errmsg r)];
                Call_sqlite3_free (exec_errmsg r)])
      ++ after /\
    calls before = [] /\ calls after = [] /\
    stdout [Printf (lit "SQL error: %s\n") [AStr (exec_errmsg r)]]
    = ("SQL error: " ++ show_arg (AStr (exec_errmsg r)) ++ newline)%string.
Proof.
  destruct (db_exec_run db sql st)
    as (start & now & r & w1 & w2 & w3 & Hstart & Hexec & Hnow & Hrun).
  exists r, w1, w2,
    [Printf (lit "%s\n") [AStr (Some sql)]; Call_timer start],
    [Call_timer now; Printf (lit "Time taken: %lld\n") [AInt (sub64 now start)]].
  rewrite Hrun. repeat split; auto.
  cbn -[show_arg]. now rewrite string_app_nil_r.
Qed.

(** ** The two-database steps *)

Lemma close_both_run (st : state W) :
  exists w,
    close_both st
    = (tt, set_world w st,
       [Call_sqlite3_close (db1 st); Call_sqlite3_close (db2 st)]).
Proof.
  destruct st as [w0 msg0 d1 d2 rc0].
  unfold close_both, do_close, bind, extern, emit, read, ret.
  cbn.
  destruct (sqlite3_close d1 w0) as [r1 w1]. cbn.
  destruct (sqlite3_close d2 w1) as [r2 w2]. cbn.
  exists w2. reflexivity.
Qed.

Lemma calls_cons (e : event) (tr : trace) :
  calls (e :: tr) = (if is_call e then [e] else []) ++ calls tr.
Proof. unfold calls. cbn [filter]. destruct (is_call e); reflexivity. Qed.

Lemma calls_nil : calls [] = [].
Proof. reflexivity. Qed.

Arguments db_exec_trace : simpl never.
Arguments calls : simpl never.

Ltac simpl_calls :=
  repeat first [ rewrite calls_app | rewrite calls_cons
               | rewrite calls_db_exec_trace | rewrite calls_nil ];
  cbn [is_call app].

(** Replace the next [db_exec] call by what [db_exec_run] says it yields. *)
Ltac run_db_exec r :=
  match goal with
  | |- context [db_exec ?d ?s ?st] =>
      let H := fresh "Hrun" in
      destruct (db_exec_run d s st) as (? & ? & r & ? & ? & ? & _ & _ & _ & H);
      rewrite H; clear H; cbn
  end.

Ltac run_close_both :=
  match goal with
  | |- context [close_both ?st] =>
      let H := fresh "Hclose" in
      destruct (close_both_run st) as (? & H); rewrite H; clear H; cbn
  end.

(** Both statements of a step, then the shape of its life-cycle calls. *)
Ltac run_pair :=
  let r1 := fresh "r1" in
  let r2 := fresh "r2" in
  let E1 := fresh "E1" in
  let E2 := fresh "E2" in
  run_db_exec r1;
  destruct (exec_rc r1 =? SQLITE_OK) eqn:E1; cbn;
  [ run_db_exec r2;
    destruct (exec_rc r2 =? SQLITE_OK) eqn:E2; cbn;
    [ | run_close_both ];
    exists (exec_rc r1), (exec_rc r2)
  | run_close_both; exists (exec_rc r1), 0 ];
  eexists; eexists; (split; [reflexivity|]);
  unfold pair_calls; rewrite ?E1, ?E2;
  simpl_calls; auto.

Lemma create_db_calls (st : state W) :
  exists r1 r2 st' tr,
    create_db st = (tt, st', tr) /\
    db1 st' = db1 st /\ db2 st' = db2 st /\
    calls tr = pair_calls (db1 st) (db2 st) sql_create1 sql_create2 r1 r2.
Proof.
  unfold create_db, bind, ESP_LOGI, emit, read, write. cbn.
  run_pair.
Qed.

Lemma insert_data_calls (st : state W) :
  exists r1 r2 st' tr,
    insert_data st = (tt, st', tr) /\
    db1 st' = db1 st /\ db2 st' = db2 st /\
    calls tr = pair_calls (db1 st) (db2 st) sql_insert1 sql_insert2 r1 r2.
Proof.
  unfold insert_data, bind, ESP_LOGI, emit, read, write, ret. cbn.
  run_pair.
Qed.

Lemma select_data_calls (st : state W) :
  exists r1 r2 st' tr,
    select_data st = (tt, st', tr) /\
    db1 st' = db1 st /\ db2 st' = db2 st /\
    calls tr = pair_calls (db1 st) (db2 st) sql_select1 sql_select2 r1 r2.
Proof.
  unfold select_data, bind, ESP_LOGI, emit, read, write, ret. cbn.
  run_pair.
Qed.

(** ** Opening a database *)

Ltac run_db_open :=
  unfold db_open, do_open, do_errmsg, printf, bind, extern, emit, write, ret;
  cbn;
  match goal with
  | |- context [sqlite3_open ?f ?w] =>
      let o := fresh "o" in
      destruct (sqlite3_open f w) as [o ?]; cbn;
      unfold db_open_trace;
      let E := fresh "E" in
      destruct (fst o =? 0) eqn:E; cbn;
      [ exists o, ""
      | match goal with
        | |- context [sqlite3_errmsg ?d ?w'] =>
            let msg := fresh "msg" in
            destruct (sqlite3_errmsg d w') as [msg ?]; cbn; exists o, msg
        end ];
      eexists; rewrite E; (split; [reflexivity|]); split; reflexivity
  end.

Lemma db_open1_run (filename : string) (st : state W) :
  exists o msg st',
    db_open filename set_db1 st = (fst o, st', db_open_trace filename o msg) /\
    db1 st' = snd o /\ db2 st' = db2 st.
Proof. destruct st. run_db_open. Qed.

Lemma db_open2_run (filename : string) (st : state W) :
  exists o msg st',
    db_open filename set_db2 st = (fst o, st', db_open_trace filename o msg) /\
    db1 st' = db1 st /\ db2 st' = snd o.
Proof. destruct st. run_db_open. Qed.

Lemma calls_db_open_trace filename o msg :
  calls (db_open_trace filename o msg)
  = [Call_sqlite3_open filename (fst o) (snd o)].
Proof. unfold db_open_trace. destruct (fst o =? 0); reflexivity. Qed.

(** ** The Sequencer *)

Ltac run_step lemma r1 r2 Hcalls :=
  match goal with
  | |- context [?f ?st] =>
      match type of (lemma st) with
      | context [f st] => idtac
      end;
      let st' := fresh "st" in
      let tr := fresh "tr" in
      let H := fresh "Hrun" in
      let H1 := fresh "Hdb1" in
      let H2 := fresh "Hdb2" in
      destruct (lemma st) as (r1 & r2 & st' & tr & H & H1 & H2 & Hcalls);
      rewrite H; clear H; cbn in H1, H2 |- *
  end.

Lemma calls_pair_calls d1 d2 s1 s2 r1 r2 :
  calls (pair_calls d1 d2 s1 s2 r1 r2) = pair_calls d1 d2 s1 s2 r1 r2.
Proof.
  unfold pair_calls.
  destruct (r1 =? SQLITE_OK), (r2 =? SQLITE_OK); reflexivity.
Qed.

Lemma calls_steps_calls d1 d2 rs :
  calls (steps_calls d1 d2 rs) = steps_calls d1 d2 rs.
Proof.
  unfold steps_calls. rewrite !calls_app, !calls_pair_calls. reflexivity.
Qed.

Lemma database_phase_run (st : state W) :
  exists o1 o2 msg1 msg2 rs steps st',
    database_phase st = (tt, st', phase_trace o1 o2 msg1 msg2 steps) /\
    calls steps = steps_calls (snd o1) (snd o2) rs.
Proof.
  unfold database_phase, do_unlink, do_close, ESP_LOGI, bind, extern, emit,
    read, ret.
  cbn.
  destruct (unlink "/spiffs/test1.db" (world st)) as [u1 w1]. cbn.
  destruct (unlink "/spiffs/test2.db" w1) as [u2 w2]. cbn.
  destruct (sqlite3_initialize w2) as [i0 w3]. cbn.
  destruct (db_open1_run "/spiffs/test1.db"
              (set_world w3 (set_world w2 (set_world w1 st))))
    as (o1 & msg1 & st1 & Hopen1 & H11 & H12).
  rewrite Hopen1. cbn.
  unfold phase_trace.
  destruct (fst o1 =? 0) eqn:E1; cbn.
  2:{ exists o1, (0, 0), msg1, "", no_statuses,
        (steps_calls (snd o1) 0 no_statuses).
      eexists. split; [rewrite E1, app_nil_r; reflexivity|].
      apply calls_steps_calls. }
  destruct (db_open2_run "/spiffs/test2.db" st1)
    as (o2 & msg2 & st2 & Hopen2 & H21 & H22).
  rewrite Hopen2. cbn.
  destruct (fst o2 =? 0) eqn:E2; cbn.
  2:{ exists o1, o2, msg1, msg2, no_statuses,
        (steps_calls (snd o1) (snd o2) no_statuses).
      eexists. split; [rewrite E1, E2, app_nil_r; reflexivity|].
      apply calls_steps_calls. }
  run_step create_db_calls rc1 rc2 Hc.
  run_step insert_data_calls ri1 ri2 Hi.
  run_step select_data_calls rs1 rs2 Hs.
  match goal with
  | |- context [sqlite3_close ?d ?w] => destruct (sqlite3_close d w) as [? ?]
  end. cbn.
  match goal with
  | |- context [sqlite3_close ?d ?w] => destruct (sqlite3_close d w) as [? ?]
  end. cbn.
  match goal with
  | |- context [esp_vfs_spiffs_unregister ?d ?w] =>
      destruct (esp_vfs_spiffs_unregister d w) as [? ?]
  end. cbn.
  exists o1, o2, msg1, msg2,
    {| rc_create1 := rc1; rc_create2 := rc2; rc_insert1 := ri1;
       rc_insert2 := ri2; rc_select1 := rs1; rc_select2 := rs2 |}.
  eexists. eexists. rewrite E1, E2.
  split.
  - cbn [app]. reflexivity.
  - unfold steps_calls. cbn [rc_create1 rc_create2 rc_insert1 rc_insert2
                               rc_select1 rc_select2].
    simpl_calls. rewrite Hc, Hi, Hs.
    repeat match goal with
           | H : db1 _ = _ |- _ => rewrite H
           | H : db2 _ = _ |- _ => rewrite H
           end.
    cbn. reflexivity.
Qed.

(** A run whose mount fails. *)
Lemma run_mount_failed (w w1 : W) (ret0 : Z) :
  esp_vfs_spiffs_register conf w = (ret0, w1) ->
  ret0 <> ESP_OK ->
  run w = (tt, boot w1,
           [ESP_LOG LOG_INFO TAG "Initializing SPIFFS" [];
            Call_spiffs_register conf ret0;
            mount_failure_log ret0]).
Proof.
  intros Hreg Hret.
  unfold run, app_main, ESP_LOGI, ESP_LOGE, bind, extern, emit. cbn.
  rewrite Hreg. cbn.
  apply Z.eqb_neq in Hret. rewrite Hret. cbn.
  unfold mount_failure_log.
  destruct (ret0 =? ESP_FAIL); [reflexivity|].
  destruct (ret0 =? ESP_ERR_NOT_FOUND); reflexivity.
Qed.

(** A run whose mount succeeds: whatever the usage query returns, it is
    logged and [database_phase] runs from the world the query left. *)
Lemma run_mounted (w w1 w2 : W) (ret1 total used : Z) :
  esp_vfs_spiffs_register conf w = (ESP_OK, w1) ->
  esp_spiffs_info None w1 = ((ret1, total, used), w2) ->
  run w = (tt, snd (fst (database_phase (boot w2))),
           [ESP_LOG LOG_INFO TAG "Initializing SPIFFS" [];
            Call_spiffs_register conf ESP_OK;
            Call_spiffs_info None ret1 total used;
            info_log ret1 total used]
           ++ snd (database_phase (boot w2))).
Proof.
  intros Hreg Hinfo.
  unfold run, app_main, ESP_LOGI, ESP_LOGE, bind, extern, emit. cbn.
  rewrite Hreg. cbn. rewrite Z.eqb_refl. cbn.
  rewrite Hinfo. cbn. unfold info_log.
  destruct (ret1 =? ESP_OK); cbn;
    change (set_world w2 (set_world w1 (boot w))) with (boot w2);
    destruct (database_phase (boot w2)) as [[[] st'] tr']; reflexivity.
Qed.

Lemma is_call_mount_failure_log ret0 : is_call (mount_failure_log ret0) = false.
Proof.
  unfold mount_failure_log.
  destruct (ret0 =? ESP_FAIL); [reflexivity|].
  destruct (ret0 =? ESP_ERR_NOT_FOUND); reflexivity.
Qed.

Lemma is_call_info_log ret1 total used : is_call (info_log ret1 total used) = false.
Proof. unfold info_log. destruct (ret1 =? ESP_OK); reflexivity. Qed.

Lemma calls_phase_trace o1 o2 msg1 msg2 steps rs :
  calls steps = steps_calls (snd o1) (snd o2) rs ->
  calls (phase_trace o1 o2 msg1 msg2 steps) = phase_calls o1 o2 rs.
Proof.
  intros Hsteps. unfold phase_trace, phase_calls.
  destruct (fst o1 =? 0), (fst o2 =? 0);
    repeat first [ rewrite calls_app | rewrite calls_cons
                 | rewrite calls_db_open_trace | rewrite calls_nil
                 | rewrite Hsteps ];
    cbn [is_call app]; rewrite ?app_nil_r; reflexivity.
Qed.

(** Every run is of one of two kinds: the mount fails and nothing follows
    its log line, or the mount succeeds and the usage query, its log line
    and the database phase follow. *)
Lemma trace_cases (w : W) :
  (exists ret0,
      ret0 <> ESP_OK /\
      fst (esp_vfs_spiffs_register conf w) = ret0 /\
      trace_of w = [ESP_LOG LOG_INFO TAG "Initializing SPIFFS" [];
                    Call_spiffs_register conf ret0;
                    mount_failure_log ret0]) \/
  (exists ret1 total used o1 o2 msg1 msg2 rs steps,
      fst (esp_vfs_spiffs_register conf w) = ESP_OK /\
      trace_of w = [ESP_LOG LOG_INFO TAG "Initializing SPIFFS" [];
                    Call_spiffs_register conf ESP_OK;
                    Call_spiffs_info None ret1 total used;
                    info_log ret1 total used]
                   ++ phase_trace o1 o2 msg1 msg2 steps /\
      calls steps = steps_calls (snd o1) (snd o2) rs).
Proof.
  unfold trace_of.
  destruct (esp_vfs_spiffs_register conf w) as [ret0 w1] eqn:Hreg.
  destruct (Z.eq_dec ret0 ESP_OK) as [->|Hret].
  - right.
    destruct (esp_spiffs_info None w1) as [[[ret1 total] used] w2] eqn:Hinfo.
    rewrite (run_mounted w w1 w2 ret1 total used Hreg Hinfo).
    destruct (database_phase_run (boot w2))
      as (o1 & o2 & msg1 & msg2 & rs & steps & st' & Hphase & Hsteps).
    rewrite Hphase. cbn [fst snd].
    exists ret1, total, used, o1, o2, msg1, msg2, rs, steps. auto.
  - left. exists ret0.
    rewrite (run_mount_failed w w1 ret0 Hreg Hret). auto.
Qed.

(** Every run follows [run_trace], and its life-cycle calls [run_calls]. *)
Lemma trace_of_shape (w : W) :
  exists info o1 o2 msg1 msg2 rs steps,
    trace_of w
    = run_trace (fst (esp_vfs_spiffs_register conf w)) info o1 o2 msg1 msg2
                steps /\
    calls (trace_of w)
    = run_calls (fst (esp_vfs_spiffs_register conf w)) info o1 o2 rs.
Proof.
  destruct (trace_cases w)
    as [(ret0 & Hret & Hfst & Htr)
       |(ret1 & total & used & o1 & o2 & msg1 & msg2 & rs & steps
          & Hfst & Htr & Hsteps)];
    rewrite Htr, Hfst; unfold run_trace, run_calls.
  - exists (0, 0, 0), (0, 0), (0, 0), "", "", no_statuses, [].
    apply Z.eqb_neq in Hret. rewrite Hret.
    rewrite !calls_cons, is_call_mount_failure_log. auto.
  - exists (ret1, total, used), o1, o2, msg1, msg2, rs, steps.
    rewrite Z.eqb_refl.
    rewrite calls_app, !calls_cons, is_call_info_log, calls_nil.
    rewrite (calls_phase_trace _ _ _ _ _ _ Hsteps). auto.
Qed.

(** ** Claims about whole runs *)

(** Bring the shape of the run on [w] into the context: [Htrace] for the
    whole trace, and its life-cycle calls in place of every projection of
    [trace_of w]. *)
Ltac reveal_calls w Htrace :=
  let ret0 := fresh "ret0" in
  let Hret0 := fresh "Hret0" in
  let rc1 := fresh "rc_open1" in
  let h1 := fresh "h1" in
  let rc2 := fresh "rc_open2" in
  let h2 := fresh "h2" in
  let Hcalls := fresh "Hcalls" in
  destruct (trace_of_shape w)
    as ([[? ?] ?] & [rc1 h1] & [rc2 h2] & ? & ? & [? ? ? ? ? ?] & ?
        & Htrace & Hcalls);
  remember (fst (esp_vfs_spiffs_register conf w)) as ret0 eqn:Hret0;
  try rewrite <- (closes_calls (trace_of w)) in *;
  try rewrite <- (opens_calls (trace_of w)) in *;
  try rewrite <- (execs_calls (trace_of w)) in *;
  try rewrite <- (unmounts_calls (trace_of w)) in *;
  try rewrite <- (unlinks_calls (trace_of w)) in *;
  rewrite ?Hcalls in *;
  unfold run_calls, phase_calls, steps_calls, pair_calls in *;
  unfold run_trace, phase_trace, db_open_trace in Htrace;
  cbn [fst snd rc_create1 rc_create2 rc_insert1 rc_insert2
       rc_select1 rc_select2] in *.

(** Decide the next status test the hypothesis [H] depends on. *)
Ltac split_status H :=
  repeat (cbn [forallb step_ok app andb In opens execs closes unlinks flat_map] in H;
          match type of H with
          | context [if ?b then _ else _] =>
              let E := fresh "E" in destruct b eqn:E
          end);
  cbn [forallb step_ok app andb In opens execs closes unlinks flat_map] in H.

Ltac statuses_to_eq :=
  repeat match goal with
         | E : (_ =? _) = true |- _ => apply Z.eqb_eq in E
         | E : (_ =? _) = false |- _ => apply Z.eqb_neq in E
         end.

(** C4.  In a run in which every step reports success (the mount, the opens
    and the statements that are executed), both databases are opened, all
    six statements are executed, and [sqlite3_close] is called exactly
    twice, once on each opened handle: as many closes as successful
    opens. *)
Theorem all_success_closes_match_opens (w : W) :
  forallb step_ok (trace_of w) = true ->
  exists h1 h2,
    opens (trace_of w)
    = [("/spiffs/test1.db", 0, h1); ("/spiffs/test2.db", 0, h2)] /\
    execs (trace_of w)
    = [(h1, sql_create1, SQLITE_OK); (h2, sql_create2, SQLITE_OK);
       (h1, sql_insert1, SQLITE_OK); (h2, sql_insert2, SQLITE_OK);
       (h1, sql_select1, SQLITE_OK); (h2, sql_select2, SQLITE_OK)] /\
    closes (trace_of w) = [h1; h2] /\
    opened (trace_of w) = [h1; h2] /\
    List.length (closes (trace_of w)) = List.length (opened (trace_of w)) /\
    List.length (closes (trace_of w)) = 2%nat.
Proof.
  intros Hok. apply step_ok_calls in Hok.
  unfold opened. reveal_calls w Htrace. clear Htrace.
  split_status Hok; try discriminate.
  statuses_to_eq. subst.
  exists h1, h2. cbn. rewrite ?Z.eqb_refl. repeat split; reflexivity.
Qed.

(** C8.  When the mount fails, for whichever reason, the run consists of
    the start-up log line, the one mount call and the log line for the
    failure kind: the mount is not retried, and no database is opened, no
    statement executed, no handle closed, nothing unmounted. *)
Theorem mount_failure_ends_run (w : W) :
  fst (esp_vfs_spiffs_register conf w) <> ESP_OK ->
  trace_of w
  = [ESP_LOG LOG_INFO TAG "Initializing SPIFFS" [];
     Call_spiffs_register conf (fst (esp_vfs_spiffs_register conf w));
     mount_failure_log (fst (esp_vfs_spiffs_register conf w))] /\
  calls (trace_of w)
  = [Call_spiffs_register conf (fst (esp_vfs_spiffs_register conf w))] /\
  opens (trace_of w) = [] /\
  execs (trace_of w) = [] /\
  closes (trace_of w) = [] /\
  unmounts (trace_of w) = 0%nat.
Proof.
  intros Hfail.
  destruct (trace_cases w)
    as [(ret0 & Hret & Hfst & Htr) | (? & ? & ? & ? & ? & ? & ? & ? & ? & Hok & _)];
    [|contradiction].
  rewrite Hfst.
  assert (Hcalls : calls (trace_of w) = [Call_spiffs_register conf ret0]).
  { rewrite Htr, !calls_cons, is_call_mount_failure_log. reflexivity. }
  rewrite <- closes_calls, <- opens_calls, <- execs_calls, <- unmounts_calls.
  rewrite Hcalls. repeat split; auto.
Qed.

(** C9.  When the first database opens and the open of the second fails,
    the run ends with the report of that failure: [sqlite3_close] is never
    called, so the first handle stays open, no statement is executed and
    the filesystem is not unmounted. *)
Theorem second_open_failure_leaves_first_handle_open
    (w : W) (f1 f2 : string) (h1 h2 : sqlite3_ptr) (rc2 : Z) :
  opens (trace_of w) = [(f1, 0, h1); (f2, rc2, h2)] ->
  rc2 <> 0 ->
  closes (trace_of w) = [] /\
  unmounts (trace_of w) = 0%nat /\
  execs (trace_of w) = [] /\
  opened (trace_of w) = [h1] /\
  exists before msg,
    trace_of w
    = before ++ [Call_sqlite3_open f2 rc2 h2;
                 Call_sqlite3_errmsg h2;
                 Printf (lit "Can't open database: %s\n") [AStr (Some msg)]].
Proof.
  intros Hopens Hrc2. unfold opened.
  reveal_calls w Htrace.
  split_status Hopens; try discriminate;
    inversion Hopens; subst; try solve [statuses_to_eq; contradiction].
  cbn. rewrite (proj2 (Z.eqb_neq rc2 0) Hrc2).
  do 4 (split; [reflexivity|]).
  exists (firstn 11 (trace_of w)). eexists.
  rewrite Htrace. reflexivity.
Qed.

(** In every run whose mount succeeds, [unlink] is called on both database
    paths, which lie under the mount root, right after the usage query is
    logged: before any open, on no condition and without looking at the
    result.  Every path the run opens afterwards is one of the two.  What
    the calls do to the files is the collaborator's part. *)
Lemma unlink_calls_precede_opens (w : W) :
  fst (esp_vfs_spiffs_register conf w) = ESP_OK ->
  exists ret1 total used after,
    trace_of w
    = [ESP_LOG LOG_INFO TAG "Initializing SPIFFS" [];
       Call_spiffs_register conf ESP_OK;
       Call_spiffs_info None ret1 total used;
       info_log ret1 total used]
      ++ [Call_unlink "/spiffs/test1.db"; Call_unlink "/spiffs/test2.db"]
      ++ after /\
    unlinks (trace_of w) = ["/spiffs/test1.db"; "/spiffs/test2.db"] /\
    (forall f r d,
        In (f, r, d) (opens (trace_of w)) ->
        In (Call_sqlite3_open f r d) after /\
        In f (unlinks (trace_of w))) /\
    "/spiffs/test1.db" = (base_path conf ++ "/test1.db")%string /\
    "/spiffs/test2.db" = (base_path conf ++ "/test2.db")%string.
Proof.
  intros Hok.
  reveal_calls w Htrace.
  rewrite Hok, Z.eqb_refl in *. rewrite Htrace.
  do 4 eexists.
  split; [cbn [app]; reflexivity|].
  split; [| split; [| split; reflexivity]].
  - destruct (rc_open1 =? 0), (rc_open2 =? 0);
      repeat match goal with
             | |- context [if ?b then _ else _] => destruct b
             end; reflexivity.
  - intros f r d Hin.
    assert (Hunl : forall l, unlinks (Call_spiffs_register conf ESP_OK
                     :: Call_spiffs_info None z z0 z1
                     :: Call_unlink "/spiffs/test1.db"
                     :: Call_unlink "/spiffs/test2.db" :: l)
                   = "/spiffs/test1.db" :: "/spiffs/test2.db" :: unlinks l)
      by reflexivity.
    rewrite Hunl.
    split_status Hin;
      repeat match goal with
             | H : _ \/ _ |- _ => destruct H as [H|H]
             | H : False |- _ => contradiction
             end;
      inversion Hin; subst; cbn; auto 20.
Qed.

(** What a run does around a failing CREATE TABLE on the first database:
    both opens have succeeded, [create_db] closes both handles and returns,
    and the caller goes on with [insert_data], [select_data] and its own
    two closes. *)
Lemma create1_failure_calls (w : W) (d : sqlite3_ptr) (r : Z) :
  In (Call_sqlite3_exec d sql_create1 r) (trace_of w) ->
  r <> SQLITE_OK ->
  exists ret1 total used d2 ri1 ri2 rs1 rs2,
    calls (trace_of w)
    = [Call_spiffs_register conf ESP_OK;
       Call_spiffs_info None ret1 total used;
       Call_unlink "/spiffs/test1.db"; Call_unlink "/spiffs/test2.db";
       Call_sqlite3_initialize;
       Call_sqlite3_open "/spiffs/test1.db" 0 d;
       Call_sqlite3_open "/spiffs/test2.db" 0 d2;
       Call_sqlite3_exec d sql_create1 r;
       Call_sqlite3_close d; Call_sqlite3_close d2]
      ++ pair_calls d d2 sql_insert1 sql_insert2 ri1 ri2
      ++ pair_calls d d2 sql_select1 sql_select2 rs1 rs2
      ++ [Call_sqlite3_close d; Call_sqlite3_close d2;
          Call_spiffs_unregister None].
Proof.
  intros Hin Hr.
  apply in_calls in Hin; [|reflexivity].
  destruct (trace_of_shape w)
    as ([[ret1 total] used] & [rc1 h1] & [rc2 h2] & msg1 & msg2
        & [c1 c2 i1 i2 s1 s2] & steps & _ & Hcalls).
  rewrite Hcalls in *. clear Hcalls.
  unfold run_calls, phase_calls, steps_calls in *.
  cbn [fst snd rc_create1 rc_create2 rc_insert1 rc_insert2
       rc_select1 rc_select2] in *.
  exists ret1, total, used, h2, i1, i2, s1, s2.
  unfold pair_calls at 1. unfold pair_calls in Hin.
  unfold sql_create1, sql_create2, sql_insert1, sql_insert2, sql_select1,
    sql_select2 in Hin.
  split_status Hin;
    repeat match goal with
           | H : _ \/ _ |- _ => destruct H as [H|H]
           | H : False |- _ => contradiction
           end;
    try discriminate;
    inversion Hin; subst; statuses_to_eq; try contradiction;
    subst;
    match goal with
    | H : fst (esp_vfs_spiffs_register conf w) = ESP_OK |- _ => rewrite H
    end;
    reflexivity.
Qed.

(** C1 (evidence of the defect).  When the CREATE TABLE on the first
    database fails, [create_db] closes both handles, but the run does not
    end there: the next life-cycle call is the INSERT of [insert_data],
    executed on the handle that has just been closed. *)
Theorem create_failure_does_not_end_run (w : W) (d : sqlite3_ptr) (r : Z) :
  In (Call_sqlite3_exec d sql_create1 r) (trace_of w) ->
  r <> SQLITE_OK ->
  exists before d2 r' after,
    calls (trace_of w)
    = before
      ++ [Call_sqlite3_exec d sql_create1 r;
          Call_sqlite3_close d; Call_sqlite3_close d2;
          Call_sqlite3_exec d sql_insert1 r']
      ++ after.
Proof.
  intros Hin Hr.
  destruct (create1_failure_calls w d r Hin Hr)
    as (ret1 & total & used & d2 & ri1 & ri2 & rs1 & rs2 & Hcalls).
  rewrite Hcalls. unfold pair_calls at 1.
  exists [Call_spiffs_register conf ESP_OK;
          Call_spiffs_info None ret1 total used;
          Call_unlink "/spiffs/test1.db"; Call_unlink "/spiffs/test2.db";
          Call_sqlite3_initialize;
          Call_sqlite3_open "/spiffs/test1.db" 0 d;
          Call_sqlite3_open "/spiffs/test2.db" 0 d2].
  exists d2, ri1. eexists. cbn [app]. reflexivity.
Qed.

(** C2 (evidence of the defect).  When the CREATE TABLE on the first
    database fails, the CREATE TABLE on the second database is never
    executed; but [sqlite3_close] is called on each handle by [create_db]
    and again at the end of [app_main], so more than once on each. *)
Theorem create_failure_closes_handles_twice (w : W) (d : sqlite3_ptr) (r : Z) :
  In (Call_sqlite3_exec d sql_create1 r) (trace_of w) ->
  r <> SQLITE_OK ->
  (forall d' r', ~ In (Call_sqlite3_exec d' sql_create2 r') (trace_of w)) /\
  exists d2 between,
    closes (trace_of w) = [d; d2] ++ between ++ [d; d2].
Proof.
  intros Hin Hr.
  destruct (create1_failure_calls w d r Hin Hr)
    as (ret1 & total & used & d2 & ri1 & ri2 & rs1 & rs2 & Hcalls).
  split.
  - intros d' r' Hin2. apply in_calls in Hin2; [|reflexivity].
    rewrite Hcalls in Hin2. unfold pair_calls in Hin2.
    unfold sql_create1, sql_create2, sql_insert1, sql_insert2, sql_select1,
      sql_select2 in Hin2.
    split_status Hin2;
      repeat match goal with
             | H : _ \/ _ |- _ => destruct H as [H|H]
             | H : False |- _ => contradiction
             end;
      discriminate.
  - rewrite <- closes_calls, Hcalls. unfold pair_calls.
    exists d2.
    destruct (ri1 =? SQLITE_OK), (ri2 =? SQLITE_OK),
      (rs1 =? SQLITE_OK), (rs2 =? SQLITE_OK);
      cbn [app closes flat_map];
      first [ exists []; reflexivity
            | exists [d; d2]; reflexivity
            | exists [d; d2; d; d2]; reflexivity ].
Qed.

End Proofs.

(** ** The usage query *)

Section UsageQuery.

Context {W : Type} {P : Platform W}.

(** C10.  When the mount succeeds and the usage query fails, the failure is
    logged and the run goes on: what follows the log line is the database
    phase (file removal, engine start, opens, statement steps), started
    from the world the query left, and it is the very same continuation,
    with the same final state, that the run takes on the platform where the
    query reports success. *)
Theorem usage_query_failure_is_not_fatal (w w1 w2 : W) (ret1 total used : Z) :
  esp_vfs_spiffs_register conf w = (ESP_OK, w1) ->
  esp_spiffs_info None w1 = ((ret1, total, used), w2) ->
  ret1 <> ESP_OK ->
  run w
  = (tt, snd (fst (database_phase (boot w2))),
     [ESP_LOG LOG_INFO TAG "Initializing SPIFFS" [];
      Call_spiffs_register conf ESP_OK;
      Call_spiffs_info None ret1 total used;
      ESP_LOG LOG_ERROR TAG "Failed to get SPIFFS partition information (%s)"
              [AStr (Some (esp_err_to_name ret1))]]
     ++ snd (database_phase (boot w2))) /\
  @run W (usage_query_ok P) w
  = (tt, snd (fst (database_phase (boot w2))),
     [ESP_LOG LOG_INFO TAG "Initializing SPIFFS" [];
      Call_spiffs_register conf ESP_OK;
      Call_spiffs_info None ESP_OK total used;
      ESP_LOG LOG_INFO TAG "Partition size: total: %d, used: %d"
              [AInt total; AInt used]]
     ++ snd (database_phase (boot w2))) /\
  exists o1 o2 rs,
    calls (snd (database_phase (boot w2))) = phase_calls o1 o2 rs.
Proof.
  intros Hreg Hinfo Hret.
  split; [|split].
  - rewrite (run_mounted w w1 w2 ret1 total used Hreg Hinfo).
    unfold info_log. apply Z.eqb_neq in Hret. rewrite Hret. reflexivity.
  - assert (Hinfo' : @esp_spiffs_info W (usage_query_ok P) None w1
                     = ((@ESP_OK W (usage_query_ok P), total, used), w2)).
    { cbn. rewrite Hinfo. reflexivity. }
    pose proof (@run_mounted W (usage_query_ok P) w w1 w2 _ total used
                  Hreg Hinfo') as Hrun.
    rewrite Hrun. unfold info_log. rewrite Z.eqb_refl. reflexivity.
  - destruct (database_phase_run (boot w2))
      as (o1 & o2 & msg1 & msg2 & rs & steps & st' & Hphase & Hsteps).
    exists o1, o2, rs. rewrite Hphase. cbn [snd].
    apply calls_phase_trace, Hsteps.
Qed.

End UsageQuery.

(** ** Concrete runs on the scripted collaborator *)

#[local] Existing Instance Fake.platform.

(** A row with an SQL NULL in its second column. *)
Lemma callback_reports_row_witness :
  List.length ["id"; "content"] = List.length [Some "1"; None] /\
  exists out,
    callback (Some "Callback function called")
             (Z.of_nat (List.length [Some "1"; None])) [Some "1"; None]
             (map Some ["id"; "content"]) = Some (0, out) /\
    out = Printf (lit "%s: \n") [AStr (Some "Callback function called")]
            :: map column_event
                   (combine (map Some ["id"; "content"]) [Some "1"; None])
            ++ [Printf (lit "\n") []] /\
    stdout out
    = row_text "Callback function called"
               (combine ["id"; "content"] [Some "1"; None]) /\
    null_marker None = "NULL".
Proof.
  split; [reflexivity|].
  apply (callback_reports_row "Callback function called" ["id"; "content"]
                              [Some "1"; None]).
  reflexivity.
Defined.

(** The run in which every step succeeds. *)
Lemma all_success_closes_match_opens_witness :
  forallb step_ok (trace_of Fake.all_good) = true /\
  exists h1 h2,
    opens (trace_of Fake.all_good)
    = [("/spiffs/test1.db", 0, h1); ("/spiffs/test2.db", 0, h2)] /\
    execs (trace_of Fake.all_good)
    = [(h1, sql_create1, SQLITE_OK); (h2, sql_create2, SQLITE_OK);
       (h1, sql_insert1, SQLITE_OK); (h2, sql_insert2, SQLITE_OK);
       (h1, sql_select1, SQLITE_OK); (h2, sql_select2, SQLITE_OK)] /\
    closes (trace_of Fake.all_good) = [h1; h2] /\
    opened (trace_of Fake.all_good) = [h1; h2] /\
    List.length (closes (trace_of Fake.all_good))
    = List.length (opened (trace_of Fake.all_good)) /\
    List.length (closes (trace_of Fake.all_good)) = 2%nat.
Proof.
  split; [vm_compute; reflexivity|].
  apply (all_success_closes_match_opens Fake.all_good).
  vm_compute. reflexivity.
Defined.

(** The run on a device without a SPIFFS partition. *)
Lemma mount_failure_ends_run_witness :
  fst (esp_vfs_spiffs_register conf Fake.no_partition) <> ESP_OK /\
  (trace_of Fake.no_partition
   = [ESP_LOG LOG_INFO TAG "Initializing SPIFFS" [];
      Call_spiffs_register
        conf (fst (esp_vfs_spiffs_register conf Fake.no_partition));
      mount_failure_log
        (fst (esp_vfs_spiffs_register conf Fake.no_partition))] /\
   calls (trace_of Fake.no_partition)
   = [Call_spiffs_register
        conf (fst (esp_vfs_spiffs_register conf Fake.no_partition))] /\
   opens (trace_of Fake.no_partition) = [] /\
   execs (trace_of Fake.no_partition) = [] /\
   closes (trace_of Fake.no_partition) = [] /\
   unmounts (trace_of Fake.no_partition) = 0%nat).
Proof.
  assert (H : fst (esp_vfs_spiffs_register conf Fake.no_partition) <> ESP_OK)
    by (intros E; vm_compute in E; discriminate E).
  split; [exact H|].
  apply (mount_failure_ends_run Fake.no_partition H).
Defined.

(** The run in which the second open fails with SQLITE_CANTOPEN. *)
Lemma second_open_failure_leaves_first_handle_open_witness :
  opens (trace_of Fake.open2_fails)
  = [("/spiffs/test1.db", 0, 1); ("/spiffs/test2.db", 14, 2)] /\
  14 <> 0 /\
  (closes (trace_of Fake.open2_fails) = [] /\
   unmounts (trace_of Fake.open2_fails) = 0%nat /\
   execs (trace_of Fake.open2_fails) = [] /\
   opened (trace_of Fake.open2_fails) = [1] /\
   exists before msg,
     trace_of Fake.open2_fails
     = before ++ [Call_sqlite3_open "/spiffs/test2.db" 14 2;
                  Call_sqlite3_errmsg 2;
                  Printf (lit "Can't open database: %s\n")
                         [AStr (Some msg)]]).
Proof.
  assert (H : 14 <> 0) by discriminate.
  split; [vm_compute; reflexivity|].
  split; [exact H|].
  apply (second_open_failure_leaves_first_handle_open
           Fake.open2_fails "/spiffs/test1.db" "/spiffs/test2.db" 1 2 14);
    [vm_compute; reflexivity | exact H].
Defined.

(** The run in which the usage query fails. *)
Lemma usage_query_failure_is_not_fatal_witness :
  esp_vfs_spiffs_register conf Fake.info_fails = (ESP_OK, Fake.info_fails) /\
  esp_spiffs_info None Fake.info_fails = ((-1, 0, 0), Fake.info_fails) /\
  -1 <> ESP_OK /\
  (run Fake.info_fails
   = (tt, snd (fst (database_phase (boot Fake.info_fails))),
      [ESP_LOG LOG_INFO TAG "Initializing SPIFFS" [];
       Call_spiffs_register conf ESP_OK;
       Call_spiffs_info None (-1) 0 0;
       ESP_LOG LOG_ERROR TAG
               "Failed to get SPIFFS partition information (%s)"
               [AStr (Some (esp_err_to_name (-1)))]]
      ++ snd (database_phase (boot Fake.info_fails))) /\
   @run Fake.world (usage_query_ok Fake.platform) Fake.info_fails
   = (tt, snd (fst (database_phase (boot Fake.info_fails))),
      [ESP_LOG LOG_INFO TAG "Initializing SPIFFS" [];
       Call_spiffs_register conf ESP_OK;
       Call_spiffs_info None ESP_OK 0 0;
       ESP_LOG LOG_INFO TAG "Partition size: total: %d, used: %d"
               [AInt 0; AInt 0]]
      ++ snd (database_phase (boot Fake.info_fails))) /\
   exists o1 o2 rs,
     calls (snd (database_phase (boot Fake.info_fails)))
     = phase_calls o1 o2 rs).
Proof.
  assert (H : -1 <> @ESP_OK Fake.world Fake.platform) by discriminate.
  split; [reflexivity|]. split; [reflexivity|]. split; [exact H|].
  apply (usage_query_failure_is_not_fatal
           Fake.info_fails Fake.info_fails Fake.info_fails (-1) 0 0);
    [reflexivity | reflexivity | exact H].
Defined.

(** The run in which the first CREATE TABLE fails: the INSERT follows the
    cleanup. *)
Lemma create_failure_does_not_end_run_witness :
  In (Call_sqlite3_exec 1 sql_create1 1) (trace_of Fake.create1_fails) /\
  1 <> SQLITE_OK /\
  exists before d2 r' after,
    calls (trace_of Fake.create1_fails)
    = before
      ++ [Call_sqlite3_exec 1 sql_create1 1;
          Call_sqlite3_close 1; Call_sqlite3_close d2;
          Call_sqlite3_exec 1 sql_insert1 r']
      ++ after.
Proof.
  assert (Hin : In (Call_sqlite3_exec 1 sql_create1 1)
                   (trace_of Fake.create1_fails))
    by (vm_compute; repeat first [left; reflexivity | right]).
  assert (H : 1 <> @SQLITE_OK Fake.world Fake.platform) by discriminate.
  split; [exact Hin|]. split; [exact H|].
  apply (create_failure_does_not_end_run Fake.create1_fails 1 1 Hin H).
Defined.

(** The same run: each handle is closed by [create_db] and by [app_main]. *)
Lemma create_failure_closes_handles_twice_witness :
  In (Call_sqlite3_exec 1 sql_create1 1) (trace_of Fake.create1_fails) /\
  1 <> SQLITE_OK /\
  (forall d' r',
      ~ In (Call_sqlite3_exec d' sql_create2 r')
           (trace_of Fake.create1_fails)) /\
  exists d2 between,
    closes (trace_of Fake.create1_fails) = [1; d2] ++ between ++ [1; d2].
Proof.
  assert (Hin : In (Call_sqlite3_exec 1 sql_create1 1)
                   (trace_of Fake.create1_fails))
    by (vm_compute; repeat first [left; reflexivity | right]).
  assert (H : 1 <> @SQLITE_OK Fake.world Fake.platform) by discriminate.
  split; [exact Hin|]. split; [exact H|].
  apply (create_failure_closes_handles_twice Fake.create1_fails 1 1 Hin H).
Defined.

(** On that run the handles 1 and 2 are each closed twice, and all four
    later statements are executed on closed handles. *)
Example create1_fails_run :
  filter (fun e => match e with
                   | Call_sqlite3_exec _ _ _ | Call_sqlite3_close _ => true
                   | _ => false
                   end) (trace_of Fake.create1_fails)
  = [Call_sqlite3_exec 1 sql_create1 1;
     Call_sqlite3_close 1; Call_sqlite3_close 2;
     Call_sqlite3_exec 1 sql_insert1 0; Call_sqlite3_exec 2 sql_insert2 0;
     Call_sqlite3_exec 1 sql_select1 0; Call_sqlite3_exec 2 sql_select2 0;
     Call_sqlite3_close 1; Call_sqlite3_close 2].
Proof. vm_compute. reflexivity. Qed.

(** When the engine refuses statements on closed handles, each of the three
    steps runs its cleanup: four closes per handle. *)
Example create1_fails_then_misuse_run :
  execs (trace_of Fake.create1_fails_then_misuse)
  = [(1, sql_create1, 1); (1, sql_insert1, 21); (1, sql_select1, 21)] /\
  closes (trace_of Fake.create1_fails_then_misuse)
  = [1; 2; 1; 2; 1; 2; 1; 2].
Proof. split; vm_compute; reflexivity. Qed.

(** ** The steps and the run in full *)

Arguments db_exec_trace : simpl never.
Arguments exec_events : simpl never.
Arguments calls : simpl never.

Section FullRuns.

Context {W : Type} {P : Platform W}.

(** Replace the next [db_exec] call by its result, keeping the clock
    readings and the engine's answer as one observation [e]. *)
Ltac observe_db_exec e :=
  match goal with
  | |- context [db_exec ?d ?s ?st] =>
      let a := fresh "start" in
      let b := fresh "now" in
      let r := fresh "r" in
      let H := fresh "Hrun" in
      destruct (db_exec_run d s st) as (a & b & r & ? & ? & ? & _ & _ & _ & H);
      rewrite H; clear H; cbn;
      pose (e := {| ob_start := a; ob_now := b; ob_result := r |});
      change (exec_rc r) with (ob_rc e) in *;
      change (exec_errmsg r) with (exec_errmsg (ob_result e)) in *;
      change (db_exec_trace d s a b r) with (exec_events d s e) in *
  end.

Ltac close_handles :=
  match goal with
  | |- context [close_both ?st] =>
      let H := fresh "Hclose" in
      destruct (close_both_run st) as (? & H); rewrite H; clear H; cbn
  end.

Ltac observe_pair :=
  let e1 := fresh "e1" in
  let e2 := fresh "e2" in
  let E1 := fresh "E1" in
  let E2 := fresh "E2" in
  observe_db_exec e1;
  destruct (ob_rc e1 =? SQLITE_OK) eqn:E1; cbn;
  [ observe_db_exec e2;
    destruct (ob_rc e2 =? SQLITE_OK) eqn:E2; cbn;
    [ | close_handles ];
    exists e1, e2
  | close_handles; exists e1, no_observation ];
  eexists;
  unfold create_db_trace, insert_data_trace, select_data_trace, step_trace,
    step_rc, step_errmsg;
  rewrite ?E1, ?E2; cbn [app]; rewrite ?app_nil_r; reflexivity.

Lemma create_db_full (st : state W) :
  exists e1 e2 w,
    create_db st
    = (tt, mkState w (step_errmsg e1 e2) (db1 st) (db2 st) (step_rc e1 e2),
       create_db_trace (db1 st) (db2 st) e1 e2).
Proof.
  destruct st as [w0 m0 d1 d2 rc0].
  unfold create_db, bind, ESP_LOGI, emit, read, write. cbn.
  observe_pair.
Qed.

Lemma insert_data_full (st : state W) :
  exists e1 e2 w,
    insert_data st
    = (tt, mkState w (step_errmsg e1 e2) (db1 st) (db2 st) (step_rc e1 e2),
       insert_data_trace (db1 st) (db2 st) e1 e2).
Proof.
  destruct st as [w0 m0 d1 d2 rc0].
  unfold insert_data, bind, ESP_LOGI, emit, read, write, ret. cbn.
  observe_pair.
Qed.

Lemma select_data_full (st : state W) :
  exists e1 e2 w,
    select_data st
    = (tt, mkState w (step_errmsg e1 e2) (db1 st) (db2 st) (step_rc e1 e2),
       select_data_trace (db1 st) (db2 st) e1 e2).
Proof.
  destruct st as [w0 m0 d1 d2 rc0].
  unfold select_data, bind, ESP_LOGI, emit, read, write, ret. cbn.
  observe_pair.
Qed.

(** [database_phase] in full: its trace, and the globals it leaves when both
    opens succeed. *)
Lemma database_phase_full (st : state W) :
  exists o1 o2 msg1 msg2 es st',
    database_phase st
    = (tt, st',
       phase_trace o1 o2 msg1 msg2 (steps_trace (snd o1) (snd o2) es)) /\
    (fst o1 = 0 -> fst o2 = 0 ->
     db1 st' = snd o1 /\ db2 st' = snd o2 /\
     rc st' = step_rc (ob_select1 es) (ob_select2 es)).
Proof.
  unfold database_phase, do_unlink, do_close, ESP_LOGI, bind, extern, emit,
    read, ret.
  cbn.
  destruct (unlink "/spiffs/test1.db" (world st)) as [u1 w1]. cbn.
  destruct (unlink "/spiffs/test2.db" w1) as [u2 w2]. cbn.
  destruct (sqlite3_initialize w2) as [i0 w3]. cbn.
  destruct (db_open1_run "/spiffs/test1.db"
              (set_world w3 (set_world w2 (set_world w1 st))))
    as (o1 & msg1 & st1 & Hopen1 & H11 & H12).
  rewrite Hopen1. cbn.
  unfold phase_trace.
  destruct (fst o1 =? 0) eqn:E1; cbn.
  2:{ exists o1, (0, 0), msg1, "", no_observations. eexists.
      split; [rewrite E1, app_nil_r; reflexivity|].
      intros H. apply Z.eqb_neq in E1. contradiction. }
  destruct (db_open2_run "/spiffs/test2.db" st1)
    as (o2 & msg2 & st2 & Hopen2 & H21 & H22).
  rewrite Hopen2. cbn.
  destruct (fst o2 =? 0) eqn:E2; cbn.
  2:{ exists o1, o2, msg1, msg2, no_observations. eexists.
      split; [rewrite E1, E2, app_nil_r; reflexivity|].
      intros _ H. apply Z.eqb_neq in E2. contradiction. }
  destruct (create_db_full st2) as (c1 & c2 & wc & Hc). rewrite Hc. cbn.
  match goal with
  | |- context [insert_data ?s] =>
      destruct (insert_data_full s) as (i1 & i2 & wi & Hi); rewrite Hi; cbn
  end.
  match goal with
  | |- context [select_data ?s] =>
      destruct (select_data_full s) as (s1 & s2 & ws & Hs); rewrite Hs; cbn
  end.
  match goal with
  | |- context [sqlite3_close ?d ?w] => destruct (sqlite3_close d w) as [? ?]
  end. cbn.
  match goal with
  | |- context [sqlite3_close ?d ?w] => destruct (sqlite3_close d w) as [? ?]
  end. cbn.
  match goal with
  | |- context [esp_vfs_spiffs_unregister ?d ?w] =>
      destruct (esp_vfs_spiffs_unregister d w) as [? ?]
  end. cbn.
  exists o1, o2, msg1, msg2,
    {| ob_create1 := c1; ob_create2 := c2; ob_insert1 := i1;
       ob_insert2 := i2; ob_select1 := s1; ob_select2 := s2 |}.
  eexists. rewrite E1, E2. split.
  - unfold steps_trace.
    cbn [ob_create1 ob_create2 ob_insert1 ob_insert2 ob_select1 ob_select2].
    rewrite H21, H22, H11. cbn [app]. rewrite <- ?app_assoc. reflexivity.
  - intros _ _. unfold set_world. cbn [db1 db2 rc]. auto.
Qed.

(** Every run in full: its trace, and the globals it leaves when the mount
    and both opens succeed. *)
Lemma run_full (w : W) :
  exists info o1 o2 msg1 msg2 es,
    trace_of w
    = run_trace (fst (esp_vfs_spiffs_register conf w)) info o1 o2 msg1 msg2
                (steps_trace (snd o1) (snd o2) es) /\
    ((fst (esp_vfs_spiffs_register conf w) =? ESP_OK)
     && (fst o1 =? 0) && (fst o2 =? 0) = false \/
     db1 (snd (fst (run w))) = snd o1 /\
     db2 (snd (fst (run w))) = snd o2 /\
     rc (snd (fst (run w))) = step_rc (ob_select1 es) (ob_select2 es)).
Proof.
  unfold trace_of, run_trace.
  destruct (esp_vfs_spiffs_register conf w) as [ret0 w1] eqn:Hreg.
  cbn [fst].
  destruct (Z.eq_dec ret0 ESP_OK) as [->|Hret].
  - destruct (esp_spiffs_info None w1) as [[[ret1 total] used] w2] eqn:Hinfo.
    rewrite (run_mounted w w1 w2 ret1 total used Hreg Hinfo).
    destruct (database_phase_full (boot w2))
      as (o1 & o2 & msg1 & msg2 & es & st' & Hphase & Hglobals).
    rewrite Hphase, Z.eqb_refl. cbn [fst snd andb].
    exists (ret1, total, used), o1, o2, msg1, msg2, es.
    split; [reflexivity|].
    destruct (fst o1 =? 0) eqn:E1; [|left; reflexivity].
    destruct (fst o2 =? 0) eqn:E2; [|left; reflexivity].
    right. apply Hglobals; apply Z.eqb_eq; assumption.
  - rewrite (run_mount_failed w w1 ret0 Hreg Hret).
    apply Z.eqb_neq in Hret. rewrite Hret.
    exists (0, 0, 0), (0, 0), (0, 0), "", "", no_observations.
    split; [reflexivity | left; reflexivity].
Qed.

(** *** Projections of the pieces of a trace *)

Lemma deliver_rows_printf (rows : list (list (string * cstr))) :
  Forall (fun e => exists fmt args, e = Printf fmt args)
         (flat_map deliver_row rows).
Proof.
  induction rows as [|row rows IH]; [constructor|].
  cbn [flat_map]. apply Forall_app. split; [|exact IH].
  rewrite deliver_row_events. constructor; [eauto|].
  apply Forall_app. split.
  - apply Forall_forall. intros e He. apply in_map_iff in He as (c & <- & _).
    unfold column_event. eauto.
  - constructor; [eauto | constructor].
Qed.

Lemma flat_map_printf {A} (f : event -> list A) (tr : trace) :
  (forall fmt args, f (Printf fmt args) = []) ->
  Forall (fun e => exists fmt args, e = Printf fmt args) tr ->
  flat_map f tr = [].
Proof.
  intros Hf Htr. induction Htr as [|e tr (fmt & args & ->) _ IH]; [reflexivity|].
  cbn [flat_map]. now rewrite Hf, IH.
Qed.

Lemma execs_app (a b : trace) : execs (a ++ b) = execs a ++ execs b.
Proof. apply flat_map_app. Qed.

Lemma frees_app (a b : trace) : frees (a ++ b) = frees a ++ frees b.
Proof. apply flat_map_app. Qed.

Lemma timers_app (a b : trace) : timers (a ++ b) = timers a ++ timers b.
Proof. apply flat_map_app. Qed.

Lemma closes_app (a b : trace) : closes (a ++ b) = closes a ++ closes b.
Proof. apply flat_map_app. Qed.

Lemma execs_exec_events db sql e :
  execs (exec_events db sql e) = [(db, sql, ob_rc e)].
Proof.
  unfold exec_events, db_exec_trace. cbn [app].
  change (execs (?a :: ?b :: ?c :: ?t)) with ((db, sql, ob_rc e) :: execs t).
  rewrite !execs_app.
  unfold execs at 1. rewrite (flat_map_printf _ _ (fun _ _ => eq_refl)
                                (deliver_rows_printf _)).
  destruct (exec_rc (ob_result e) =? SQLITE_OK); reflexivity.
Qed.

Lemma frees_exec_events db sql e :
  frees (exec_events db sql e)
  = if ob_rc e =? SQLITE_OK then [] else [exec_errmsg (ob_result e)].
Proof.
  unfold exec_events, db_exec_trace, ob_rc. cbn [app].
  change (frees (?a :: ?b :: ?c :: ?t)) with (frees t).
  rewrite !frees_app.
  unfold frees at 1. rewrite (flat_map_printf _ _ (fun _ _ => eq_refl)
                                (deliver_rows_printf _)).
  destruct (exec_rc (ob_result e) =? SQLITE_OK); reflexivity.
Qed.

Lemma timers_exec_events db sql e :
  timers (exec_events db sql e) = [ob_start e; ob_now e].
Proof.
  unfold exec_events, db_exec_trace. cbn [app].
  change (timers (?a :: ?b :: ?c :: ?t)) with (ob_start e :: timers t).
  rewrite !timers_app.
  unfold timers at 1. rewrite (flat_map_printf _ _ (fun _ _ => eq_refl)
                                 (deliver_rows_printf _)).
  destruct (exec_rc (ob_result e) =? SQLITE_OK); reflexivity.
Qed.

Lemma closes_exec_events db sql e : closes (exec_events db sql e) = [].
Proof.
  rewrite <- closes_calls. unfold exec_events.
  rewrite calls_db_exec_trace. reflexivity.
Qed.

Lemma stdout_deliver_rows (rows : list (list (string * cstr))) :
  stdout (flat_map deliver_row rows)
  = String.concat "" (map (row_text "Callback function called") rows).
Proof.
  assert (Hrow : forall row,
             stdout (deliver_row row)
             = row_text "Callback function called" row).
  { intros row. rewrite deliver_row_events.
    rewrite <- (map_map fst Some row).
    cbn [stdout]. rewrite stdout_app, stdout_columns.
    change (format (lit "%s: \n") [AStr data])
      with ("Callback function called" ++ (": " ++ newline))%string.
    rewrite string_app_assoc.
    replace (combine (map fst row) (map snd row)) with row; [reflexivity|].
    clear. induction row as [|[n v] row IH]; [reflexivity|].
    cbn [map combine fst snd]. now rewrite <- IH. }
  induction rows as [|row rows IH]; [reflexivity|].
  cbn [flat_map map]. rewrite stdout_app, Hrow, IH.
  destruct (map (row_text "Callback function called") rows) eqn:E;
    cbn [String.concat]; [apply string_app_nil_r | reflexivity].
Qed.

(** *** The Timed Statement Executor, continued *)

(** X1.  What one statement execution writes to standard output: the
    statement text, then every result row in the order the engine delivers
    them, each reported under the label "Callback function called", then
    the success line or the error line, then the elapsed time, which is the
    second clock reading (taken after the outcome is reported and, on
    failure, the message freed) minus the first. *)
Theorem db_exec_output (db : sqlite3_ptr) (sql : string) (st : state W) :
  exists e w1 w2 w3,
    esp_timer_get_time (world st) = (ob_start e, w1) /\
    sqlite3_exec db sql w1 = (ob_result e, w2) /\
    esp_timer_get_time
      (if ob_rc e =? SQLITE_OK then w2
       else sqlite3_free (exec_errmsg (ob_result e)) w2) = (ob_now e, w3) /\
    stdout (snd (db_exec db sql st)) = exec_text sql e.
Proof.
  destruct (db_exec_run db sql st)
    as (start & now & r & w1 & w2 & w3 & Hstart & Hexec & Hnow & Hrun).
  exists {| ob_start := start; ob_now := now; ob_result := r |}, w1, w2, w3.
  split; [exact Hstart|]. split; [exact Hexec|]. split; [exact Hnow|].
  rewrite Hrun. unfold db_exec_trace, exec_text, ob_rc.
  cbn [ob_start ob_now ob_result app snd].
  change (stdout (Printf (lit "%s\n") [AStr (Some sql)] :: ?a :: ?b :: ?t))
    with ((sql ++ newline) ++ stdout t)%string.
  rewrite string_app_assoc, !stdout_app, stdout_deliver_rows.
  do 2 f_equal. f_equal.
  destruct (exec_rc r =? SQLITE_OK).
  - cbn [stdout]. rewrite !string_app_nil_r. reflexivity.
  - cbn [stdout]. rewrite !string_app_nil_r. reflexivity.
Qed.

(** X2.  A statement execution changes one global only, [zErrMsg]: the
    handles [db1] and [db2] and the global [rc] are as before (the status
    lives in a local of the same name).  Nothing is freed on success; on
    failure the one pointer freed is the one [zErrMsg] still holds
    afterwards. *)
Theorem db_exec_keeps_handles_and_rc
    (db : sqlite3_ptr) (sql : string) (st : state W) :
  db1 (snd (fst (db_exec db sql st))) = db1 st /\
  db2 (snd (fst (db_exec db sql st))) = db2 st /\
  rc (snd (fst (db_exec db sql st))) = rc st /\
  frees (snd (db_exec db sql st))
  = (if fst (fst (db_exec db sql st)) =? SQLITE_OK then []
     else [zErrMsg (snd (fst (db_exec db sql st)))]).
Proof.
  destruct (db_exec_run db sql st)
    as (start & now & r & w1 & w2 & w3 & Hstart & Hexec & Hnow & Hrun).
  rewrite Hrun. cbn [fst snd].
  do 3 (split; [reflexivity|]).
  apply (frees_exec_events db sql
           {| ob_start := start; ob_now := now; ob_result := r |}).
Qed.

(** *** Opening a database, continued *)

(** X3.  [db_open] returns the status of its one [sqlite3_open] call
    unchanged and stores the handle that call produced in the global it is
    given, on failure as on success; the other globals are untouched.  On
    failure it asks the engine for the message of that handle and prints
    it; it never closes the handle. *)
Theorem db_open_stores_handle_and_returns_status
    (filename : string) (st : state W) :
  exists o w msg,
    sqlite3_open filename (world st) = (o, w) /\
    (fst o = 0 \/
     sqlite3_errmsg (snd o) w
     = (msg, world (snd (fst (db_open filename set_db1 st))))) /\
    fst (fst (db_open filename set_db1 st)) = fst o /\
    fst (fst (db_open filename set_db2 st)) = fst o /\
    db1 (snd (fst (db_open filename set_db1 st))) = snd o /\
    db2 (snd (fst (db_open filename set_db1 st))) = db2 st /\
    db2 (snd (fst (db_open filename set_db2 st))) = snd o /\
    db1 (snd (fst (db_open filename set_db2 st))) = db1 st /\
    rc (snd (fst (db_open filename set_db1 st))) = rc st /\
    zErrMsg (snd (fst (db_open filename set_db1 st))) = zErrMsg st /\
    snd (db_open filename set_db1 st) = db_open_trace filename o msg /\
    snd (db_open filename set_db2 st) = db_open_trace filename o msg /\
    closes (db_open_trace filename o msg) = [].
Proof.
  destruct st as [w0 m0 d1 d2 rc0].
  unfold db_open, do_open, do_errmsg, printf, bind, extern, emit, write, ret.
  cbn.
  destruct (sqlite3_open filename w0) as [o w1]. cbn.
  unfold db_open_trace.
  destruct (fst o =? 0) eqn:E; cbn.
  - exists o, w1, "". rewrite E. apply Z.eqb_eq in E. repeat split; auto.
  - destruct (sqlite3_errmsg (snd o) w1) as [msg w2] eqn:Emsg. cbn.
    exists o, w1, msg. rewrite E. repeat split; auto.
Qed.

(** *** The two-database steps, continued *)

Lemma execs_exec_events_flat db sql e :
  flat_map (fun ev => match ev with
                      | Call_sqlite3_exec d s r => [(d, s, r)]
                      | _ => []
                      end) (exec_events db sql e)
  = [(db, sql, ob_rc e)].
Proof. exact (execs_exec_events db sql e). Qed.

Lemma closes_exec_events_flat db sql e :
  flat_map (fun ev => match ev with
                      | Call_sqlite3_close d => [d]
                      | _ => []
                      end) (exec_events db sql e)
  = [].
Proof. exact (closes_exec_events db sql e). Qed.

Lemma frees_exec_events_flat db sql e :
  flat_map (fun ev => match ev with
                      | Call_sqlite3_free p => [p]
                      | _ => []
                      end) (exec_events db sql e)
  = if ob_rc e =? SQLITE_OK then [] else [exec_errmsg (ob_result e)].
Proof. exact (frees_exec_events db sql e). Qed.

Lemma timers_exec_events_flat db sql e :
  flat_map (fun ev => match ev with
                      | Call_timer t => [t]
                      | _ => []
                      end) (exec_events db sql e)
  = [ob_start e; ob_now e].
Proof. exact (timers_exec_events db sql e). Qed.

(** Compute a projection of a trace built from events, [exec_events] and
    [++]. *)
Ltac project :=
  unfold execs, closes, frees, timers;
  repeat first [ rewrite flat_map_app
               | rewrite execs_exec_events_flat
               | rewrite closes_exec_events_flat
               | rewrite frees_exec_events_flat
               | rewrite timers_exec_events_flat
               | progress cbn [flat_map app] ].

Ltac step_contract Hfull :=
  let e1 := fresh "e1" in
  let e2 := fresh "e2" in
  let w := fresh "w" in
  let H := fresh "H" in
  destruct Hfull as (e1 & e2 & w & H);
  rewrite H; clear H; cbn [fst snd db1 db2 rc];
  exists (ob_rc e1), (ob_rc e2);
  unfold create_db_trace, insert_data_trace, select_data_trace, step_trace,
    step_execs, step_rc;
  destruct (ob_rc e1 =? SQLITE_OK) eqn:?;
    [destruct (ob_rc e2 =? SQLITE_OK) eqn:?|];
    project; cbn [andb]; repeat split; reflexivity.

(** X4.  [create_db], from any state: the CREATE on the second database is
    executed exactly when the one on the first succeeded; after the first
    failure both handles are closed, first [db1], then [db2], and with two
    successes none is.  The globals [db1] and [db2] keep their values, also
    after the handles are closed, and the global [rc] holds the status of
    the last statement executed. *)
Theorem create_db_contract (st : state W) :
  exists r1 r2,
    execs (snd (create_db st))
    = step_execs (db1 st) (db2 st) sql_create1 sql_create2 r1 r2 /\
    closes (snd (create_db st))
    = (if (r1 =? SQLITE_OK) && (r2 =? SQLITE_OK) then []
       else [db1 st; db2 st]) /\
    db1 (snd (fst (create_db st))) = db1 st /\
    db2 (snd (fst (create_db st))) = db2 st /\
    rc (snd (fst (create_db st))) = (if r1 =? SQLITE_OK then r2 else r1).
Proof. step_contract (create_db_full st). Qed.

(** X5.  [insert_data], from any state: the same contract for the two
    INSERT statements. *)
Theorem insert_data_contract (st : state W) :
  exists r1 r2,
    execs (snd (insert_data st))
    = step_execs (db1 st) (db2 st) sql_insert1 sql_insert2 r1 r2 /\
    closes (snd (insert_data st))
    = (if (r1 =? SQLITE_OK) && (r2 =? SQLITE_OK) then []
       else [db1 st; db2 st]) /\
    db1 (snd (fst (insert_data st))) = db1 st /\
    db2 (snd (fst (insert_data st))) = db2 st /\
    rc (snd (fst (insert_data st))) = (if r1 =? SQLITE_OK then r2 else r1).
Proof. step_contract (insert_data_full st). Qed.

(** X6.  [select_data], from any state: the same contract for the two
    SELECT statements. *)
Theorem select_data_contract (st : state W) :
  exists r1 r2,
    execs (snd (select_data st))
    = step_execs (db1 st) (db2 st) sql_select1 sql_select2 r1 r2 /\
    closes (snd (select_data st))
    = (if (r1 =? SQLITE_OK) && (r2 =? SQLITE_OK) then []
       else [db1 st; db2 st]) /\
    db1 (snd (fst (select_data st))) = db1 st /\
    db2 (snd (fst (select_data st))) = db2 st /\
    rc (snd (fst (select_data st))) = (if r1 =? SQLITE_OK then r2 else r1).
Proof. step_contract (select_data_full st). Qed.

End FullRuns.

(** ** The Row Reporter, continued *)

Lemma callback_loop_prefix (values : list cstr) :
  forall (names seen_values seen_names more_values more_names : list cstr),
    List.length seen_values = List.length seen_names ->
    List.length values = List.length names ->
    callback_loop (List.length values) (List.length seen_values)
                  (seen_values ++ values ++ more_values)
                  (seen_names ++ names ++ more_names)
    = Some (map column_event (combine names values)).
Proof.
  induction values as [|v values IH]; intros names sv sn mv mn Hseen Hlen.
  - destruct names; reflexivity.
  - destruct names as [|n names]; [discriminate|].
    simpl in Hlen. injection Hlen as Hlen.
    cbn [List.length callback_loop app].
    rewrite Hseen at 1.
    rewrite !nth_error_app2 by (rewrite ?Hseen; apply Nat.le_refl).
    rewrite Hseen, Nat.sub_diag. cbn [nth_error].
    specialize (IH names (sv ++ [v]) (sn ++ [n]) mv mn).
    rewrite !length_app in IH. cbn [List.length] in IH.
    rewrite !Nat.add_1_r in IH. rewrite <- !app_assoc in IH. cbn [app] in IH.
    rewrite <- Hseen. rewrite IH by congruence.
    cbn [combine map]. unfold column_event at 2. cbn [fst snd].
    destruct v; reflexivity.
Qed.

Lemma callback_loop_defined (n : nat) :
  forall (i : nat) (argv azColName : list cstr),
    callback_loop n i argv azColName = None <->
    (n <> 0 /\ (List.length argv < i + n \/ List.length azColName < i + n))%nat.
Proof.
  induction n as [|n IH]; intros i argv names.
  - cbn. split; [discriminate | intros [H _]; contradiction].
  - cbn [callback_loop].
    destruct (nth_error names i) as [name|] eqn:En.
    + destruct (nth_error argv i) as [value|] eqn:Ev.
      * assert (Hn : (i < List.length names)%nat)
          by (apply nth_error_Some; congruence).
        assert (Hv : (i < List.length argv)%nat)
          by (apply nth_error_Some; congruence).
        specialize (IH (S i) argv names).
        destruct (callback_loop n (S i) argv names).
        -- split; [discriminate|].
           intros [_ H]. destruct IH as [_ IH].
           destruct (Nat.eq_dec n 0) as [->|Hn0]; [lia|].
           assert (Hsome : Some t = None) by (apply IH; lia).
           discriminate Hsome.
        -- split; [|reflexivity]. intros _.
           destruct IH as [IH _]. specialize (IH eq_refl). lia.
      * apply nth_error_None in Ev. split; [|reflexivity]. intros _. lia.
    + apply nth_error_None in En. split; [|reflexivity]. intros _. lia.
Qed.

(** X7.  With a column count of zero or less the loop of the Row Reporter
    does not run: it prints the label line and the empty line and reads
    neither array, whatever they hold. *)
Theorem callback_without_columns (label : cstr) (argc : Z)
    (argv azColName : list cstr) :
  argc <= 0 ->
  callback label argc argv azColName
  = Some (0, [Printf (lit "%s: \n") [AStr label]; Printf (lit "\n") []]).
Proof.
  intros Hargc. unfold callback.
  replace (Z.to_nat argc) with 0%nat by lia. reflexivity.
Qed.

(** X8.  The Row Reporter reads the first [argc] entries of each array and
    nothing beyond: entries that follow them do not change the result. *)
Theorem callback_reads_first_argc_entries (label : cstr)
    (names values more_names more_values : list cstr) :
  List.length names = List.length values ->
  callback label (Z.of_nat (List.length values))
           (values ++ more_values) (names ++ more_names)
  = callback label (Z.of_nat (List.length values)) values names.
Proof.
  intros Hlen. rewrite (callback_events label names values Hlen).
  unfold callback. rewrite Nat2Z.id.
  pose proof (callback_loop_prefix values names [] [] more_values more_names
                eq_refl (eq_sym Hlen)) as Hloop.
  cbn [app List.length] in Hloop. rewrite Hloop. reflexivity.
Qed.

(** X9.  The reads of the Row Reporter leave the arrays exactly when the
    column count exceeds the length of the value array or of the name
    array. *)
Theorem callback_out_of_bounds (label : cstr) (argc : Z)
    (argv azColName : list cstr) :
  callback label argc argv azColName = None <->
  (List.length argv < Z.to_nat argc \/
   List.length azColName < Z.to_nat argc)%nat.
Proof.
  unfold callback.
  pose proof (callback_loop_defined (Z.to_nat argc) 0 argv azColName) as H.
  cbn [Nat.add] in H.
  destruct (callback_loop (Z.to_nat argc) 0 argv azColName).
  - split; [discriminate|]. intros Hlt.
    destruct H as [_ H]. 
    assert (Hne : Z.to_nat argc <> 0%nat) by lia.
    specialize (H (conj Hne Hlt)). discriminate.
  - split; [|reflexivity]. intros _. apply H. reflexivity.
Qed.

(** ** Whole runs, continued *)

Section Runs.

Context {W : Type} {P : Platform W}.

Ltac rewrite_statuses :=
  repeat match goal with
         | E : (?a =? ?b) = _ |- context [?a =? ?b] => rewrite E
         end.

(** The shape of the run on [w], as hypotheses: [Htrace] for the whole
    trace, the life-cycle calls in place of its projections. *)
Ltac reveal_calls w Htrace :=
  let ret0 := fresh "ret0" in
  let Hret0 := fresh "Hret0" in
  let rc1 := fresh "rc_open1" in
  let h1 := fresh "h1" in
  let rc2 := fresh "rc_open2" in
  let h2 := fresh "h2" in
  let Hcalls := fresh "Hcalls" in
  destruct (trace_of_shape w)
    as ([[? ?] ?] & [rc1 h1] & [rc2 h2] & ? & ? & [? ? ? ? ? ?] & ?
        & Htrace & Hcalls);
  remember (fst (esp_vfs_spiffs_register conf w)) as ret0 eqn:Hret0;
  try rewrite <- (closes_calls (trace_of w)) in *;
  try rewrite <- (opens_calls (trace_of w)) in *;
  try rewrite <- (execs_calls (trace_of w)) in *;
  try rewrite <- (unmounts_calls (trace_of w)) in *;
  try rewrite <- (unlinks_calls (trace_of w)) in *;
  rewrite ?Hcalls in *;
  unfold run_calls, phase_calls, steps_calls, pair_calls in *;
  unfold run_trace, phase_trace, db_open_trace in Htrace;
  cbn [fst snd rc_create1 rc_create2 rc_insert1 rc_insert2
       rc_select1 rc_select2] in *.

(** Case analysis on the status tests [H] depends on. *)
Ltac split_status H :=
  repeat (cbn [forallb step_ok app andb In opens execs closes unlinks flat_map
               fst snd] in H;
          match type of H with
          | context [if ?b then _ else _] =>
              let E := fresh "E" in destruct b eqn:E
          end);
  cbn [forallb step_ok app andb In opens execs closes unlinks flat_map
               fst snd] in H.

Ltac statuses_to_eq :=
  repeat match goal with
         | E : (_ =? _) = true |- _ => apply Z.eqb_eq in E
         | E : (_ =? _) = false |- _ => apply Z.eqb_neq in E
         end.


(** X10.  When the open of the first database fails, the run ends with the
    report of that failure: the second database is not opened, no statement
    is executed, [sqlite3_close] is not called (not on the handle the
    failed open produced either) and the filesystem is not unmounted. *)
Theorem first_open_failure_ends_run
    (w : W) (f1 : string) (h1 : sqlite3_ptr) (rc1 : Z)
    (rest : list (string * Z * sqlite3_ptr)) :
  opens (trace_of w) = (f1, rc1, h1) :: rest ->
  rc1 <> 0 ->
  rest = [] /\
  f1 = "/spiffs/test1.db" /\
  execs (trace_of w) = [] /\
  closes (trace_of w) = [] /\
  unmounts (trace_of w) = 0%nat /\
  exists before msg,
    trace_of w
    = before ++ [Call_sqlite3_open f1 rc1 h1;
                 Call_sqlite3_errmsg h1;
                 Printf (lit "Can't open database: %s\n") [AStr (Some msg)]].
Proof.
  intros Hopens Hrc1.
  reveal_calls w Htrace.
  split_status Hopens; try discriminate;
    inversion Hopens; subst; try solve [statuses_to_eq; contradiction].
  cbn.
  do 5 (split; [reflexivity|]).
  exists (firstn 8 (trace_of w)). eexists.
  rewrite Htrace. reflexivity.
Qed.

(** X11.  In a run in which both databases are opened, every statement
    that fails costs one cleanup and the end of [app_main] adds one more,
    each closing the first handle and then the second: with [n] failed
    statements [sqlite3_close] is called [n + 1] times on each handle. *)
Theorem closes_once_more_than_failed_statements
    (w : W) (h1 h2 : sqlite3_ptr) :
  opened (trace_of w) = [h1; h2] ->
  closes (trace_of w)
  = List.concat
      (repeat [h1; h2] (S (List.length (failed_execs (trace_of w))))).
Proof.
  intros Hopened. unfold opened, failed_execs in *.
  reveal_calls w Htrace. clear Htrace.
  split_status Hopened; try discriminate;
    inversion Hopened; subst;
    cbn -[Z.eqb]; rewrite_statuses; reflexivity.
Qed.

(** X12.  The filesystem is unmounted in exactly the runs in which both
    databases are opened, and then once: not after a failed mount, and not
    after a failed open, which leaves it mounted. *)
Theorem unmounted_iff_both_opened (w : W) :
  unmounts (trace_of w)
  = (if Nat.eqb (List.length (opened (trace_of w))) 2 then 1 else 0)%nat.
Proof.
  unfold opened.
  reveal_calls w Htrace. clear Htrace.
  repeat match goal with
         | |- context [if ?b then _ else _] =>
             let E := fresh "E" in destruct b eqn:E; cbn -[Z.eqb]
         end;
    rewrite_statuses; try reflexivity.
Qed.

(** X13.  In a run in which both databases are opened, the first statement
    of each of the three steps is always executed, on the first handle and
    in the order CREATE, INSERT, SELECT, whatever went wrong before; the
    second statement of a step is executed, on the second handle, exactly
    when the first one succeeded. *)
Theorem every_step_is_attempted (w : W) (h1 h2 : sqlite3_ptr) :
  opened (trace_of w) = [h1; h2] ->
  exists rs,
    execs (trace_of w)
    = step_execs h1 h2 sql_create1 sql_create2 (rc_create1 rs) (rc_create2 rs)
      ++ step_execs h1 h2 sql_insert1 sql_insert2
                    (rc_insert1 rs) (rc_insert2 rs)
      ++ step_execs h1 h2 sql_select1 sql_select2
                    (rc_select1 rs) (rc_select2 rs).
Proof.
  intros Hopened. unfold opened in *.
  reveal_calls w Htrace. clear Htrace.
  match goal with
  | |- context [Call_sqlite3_exec _ sql_create1 ?c1] =>
    match goal with
    | |- context [Call_sqlite3_exec _ sql_create2 ?c2] =>
    match goal with
    | |- context [Call_sqlite3_exec _ sql_insert1 ?i1] =>
    match goal with
    | |- context [Call_sqlite3_exec _ sql_insert2 ?i2] =>
    match goal with
    | |- context [Call_sqlite3_exec _ sql_select1 ?s1] =>
    match goal with
    | |- context [Call_sqlite3_exec _ sql_select2 ?s2] =>
        exists {| rc_create1 := c1; rc_create2 := c2; rc_insert1 := i1;
                  rc_insert2 := i2; rc_select1 := s1; rc_select2 := s2 |}
    end end end end end
  end.
  unfold step_execs.
  cbn [rc_create1 rc_create2 rc_insert1 rc_insert2 rc_select1 rc_select2].
  split_status Hopened; try discriminate;
    inversion Hopened; subst;
    cbn -[Z.eqb]; rewrite_statuses; reflexivity.
Qed.

(** X14.  Statements are executed and handles closed only on handles that a
    successful [sqlite3_open] of the same run returned: never on a NULL or
    unset global, and never on the handle of a failed open. *)
Theorem only_opened_handles_are_used (w : W) (d : sqlite3_ptr) :
  In d (closes (trace_of w)) \/ In d (map (fun e => fst (fst e))
                                         (execs (trace_of w))) ->
  In d (opened (trace_of w)).
Proof.
  intros Hused. unfold opened.
  reveal_calls w Htrace. clear Htrace.
  repeat match goal with
         | |- context [if ?b then _ else _] =>
             let E := fresh "E" in destruct b eqn:E; cbn -[Z.eqb]
         | H : context [if ?b then _ else _] |- _ =>
             let E := fresh "E" in destruct b eqn:E
         end;
    cbn -[Z.eqb] in *; rewrite_statuses; cbn;
    repeat match goal with
           | H : _ \/ _ |- _ => destruct H as [H|H]
           | H : False |- _ => contradiction
           end;
    subst; auto.
Qed.

Lemma opens_exec_events_flat db sql e :
  flat_map (fun ev => match ev with
                      | Call_sqlite3_open f r d => [(f, r, d)]
                      | _ => []
                      end) (exec_events db sql e)
  = [].
Proof.
  change (opens (exec_events db sql e) = []).
  rewrite <- opens_calls. unfold exec_events.
  rewrite calls_db_exec_trace. reflexivity.
Qed.

(** Compute the projections of a trace built from events, [exec_events]
    and [++], once its status tests are decided. *)
Ltac project_run :=
  unfold execs, closes, frees, timers, opens;
  repeat first [ rewrite flat_map_app
               | rewrite execs_exec_events_flat
               | rewrite closes_exec_events_flat
               | rewrite frees_exec_events_flat
               | rewrite timers_exec_events_flat
               | rewrite opens_exec_events_flat
               | progress cbn [flat_map app] ].

Ltac unfold_run :=
  unfold run_trace, phase_trace, db_open_trace, steps_trace, create_db_trace,
    insert_data_trace, select_data_trace, step_trace, info_log,
    mount_failure_log.

Ltac decide_statuses :=
  repeat match goal with
         | |- context [if ?b then _ else _] =>
             let E := fresh "E" in destruct b eqn:E
         end.

(** X15.  In every run [sqlite3_free] is called once for each statement
    that failed and not at all for one that succeeded. *)
Theorem one_free_per_failed_statement (w : W) :
  List.length (frees (trace_of w))
  = List.length (failed_execs (trace_of w)).
Proof.
  destruct (run_full w) as (info & o1 & o2 & msg1 & msg2 & es & Htrace & _).
  rewrite Htrace. unfold failed_execs. unfold_run.
  decide_statuses; project_run; rewrite_statuses;
    cbn [filter snd negb app List.length]; rewrite_statuses;
    cbn [filter snd negb app List.length]; reflexivity.
Qed.

(** X16.  In every run the clock is read twice for each statement executed,
    and at no other time. *)
Theorem two_clock_readings_per_statement (w : W) :
  List.length (timers (trace_of w))
  = (2 * List.length (execs (trace_of w)))%nat.
Proof.
  destruct (run_full w) as (info & o1 & o2 & msg1 & msg2 & es & Htrace & _).
  rewrite Htrace. unfold_run.
  decide_statuses; project_run; reflexivity.
Qed.

(** X17.  In a run in which both databases are opened, the globals [db1]
    and [db2] still hold the two handles when [app_main] returns, although
    both have been closed (they are never reset to NULL), and the global
    [rc] holds the status of the last statement that was executed. *)
Theorem run_leaves_handles_in_globals (w : W) (h1 h2 : sqlite3_ptr) :
  opened (trace_of w) = [h1; h2] ->
  db1 (snd (fst (run w))) = h1 /\
  db2 (snd (fst (run w))) = h2 /\
  rc (snd (fst (run w))) = last (map snd (execs (trace_of w))) 0.
Proof.
  intros Hopened.
  destruct (run_full w) as (info & o1 & o2 & msg1 & msg2 & es & Htrace & Hg).
  rewrite Htrace in *. clear Htrace.
  unfold opened in Hopened. revert Hopened Hg.
  unfold step_rc. unfold_run.
  decide_statuses; project_run; cbn [andb fst snd];
    rewrite_statuses; cbn [flat_map app];
    intros Hopened Hg; try discriminate Hopened;
    destruct Hg as [Hg | (Hd1 & Hd2 & Hrc)]; try discriminate Hg;
    inversion Hopened; subst;
    rewrite Hrc; repeat split; try assumption; reflexivity.
Qed.

(** ** The database files

    [app_main] removes the files of an earlier run by calling [unlink] on
    both paths and goes on whatever the calls return. *)

(** [db_open] on either global, with the [sqlite3_open] call it makes. *)
Lemma db_open1_pinned (filename : string) (st : state W) :
  exists msg st',
    db_open filename set_db1 st
    = (fst (fst (sqlite3_open filename (world st))), st',
       db_open_trace filename (fst (sqlite3_open filename (world st))) msg) /\
    db1 st' = snd (fst (sqlite3_open filename (world st))) /\
    db2 st' = db2 st /\
    ((fst (fst (sqlite3_open filename (world st))) =? 0) = false \/
     world st' = snd (sqlite3_open filename (world st))).
Proof.
  destruct st as [w0 m0 d1 d2 rc0].
  unfold db_open, do_open, do_errmsg, printf, bind, extern, emit, write, ret.
  cbn.
  destruct (sqlite3_open filename w0) as [o w1]. cbn.
  unfold db_open_trace.
  destruct (fst o =? 0) eqn:E; cbn.
  - exists "". eexists. repeat split; auto.
  - destruct (sqlite3_errmsg (snd o) w1) as [msg w2]. cbn.
    exists msg. eexists. repeat split; auto.
Qed.

Lemma db_open2_pinned (filename : string) (st : state W) :
  exists msg st',
    db_open filename set_db2 st
    = (fst (fst (sqlite3_open filename (world st))), st',
       db_open_trace filename (fst (sqlite3_open filename (world st))) msg) /\
    db1 st' = db1 st /\
    db2 st' = snd (fst (sqlite3_open filename (world st))).
Proof.
  destruct st as [w0 m0 d1 d2 rc0].
  unfold db_open, do_open, do_errmsg, printf, bind, extern, emit, write, ret.
  cbn.
  destruct (sqlite3_open filename w0) as [o w1]. cbn.
  unfold db_open_trace.
  destruct (fst o =? 0) eqn:E; cbn.
  - exists "". eexists. repeat split; auto.
  - destruct (sqlite3_errmsg (snd o) w1) as [msg w2]. cbn.
    exists msg. eexists. repeat split; auto.
Qed.

(** The opens of [database_phase], with the worlds they are made in. *)
Lemma database_phase_opens (st : state W) :
  let w3 := snd (sqlite3_initialize
                   (snd (unlink "/spiffs/test2.db"
                           (snd (unlink "/spiffs/test1.db" (world st)))))) in
  let o1 := fst (sqlite3_open "/spiffs/test1.db" w3) in
  let o2 := fst (sqlite3_open "/spiffs/test2.db"
                   (snd (sqlite3_open "/spiffs/test1.db" w3))) in
  opens (snd (database_phase st))
  = ("/spiffs/test1.db", fst o1, snd o1)
    :: (if fst o1 =? 0 then [("/spiffs/test2.db", fst o2, snd o2)] else []).
Proof.
  cbv zeta.
  unfold database_phase, do_unlink, do_close, ESP_LOGI, bind, extern, emit,
    read, ret.
  cbn.
  destruct (unlink "/spiffs/test1.db" (world st)) as [u1 w1]. cbn.
  destruct (unlink "/spiffs/test2.db" w1) as [u2 w2]. cbn.
  destruct (sqlite3_initialize w2) as [i0 w3]. cbn.
  destruct (db_open1_pinned "/spiffs/test1.db"
              (set_world w3 (set_world w2 (set_world w1 st))))
    as (msg1 & st1 & Hopen1 & H11 & H12 & Hw1).
  cbn [world set_world] in Hopen1, H11, Hw1.
  rewrite Hopen1. cbn.
  destruct (sqlite3_open "/spiffs/test1.db" w3) as [o1 w4]. cbn [fst snd] in *.
  unfold db_open_trace. cbn [fst snd].
  destruct (fst o1 =? 0) eqn:E1; cbn.
  2:{ project_run. reflexivity. }
  destruct Hw1 as [Hw1|Hw1]; [discriminate|].
  destruct (db_open2_pinned "/spiffs/test2.db" st1)
    as (msg2 & st2 & Hopen2 & H21 & H22).
  rewrite Hw1 in Hopen2, H22.
  rewrite Hopen2. cbn.
  destruct (sqlite3_open "/spiffs/test2.db" w4) as [o2 w5]. cbn [fst snd] in *.
  unfold db_open_trace. cbn [fst snd].
  destruct (fst o2 =? 0) eqn:E2; cbn.
  2:{ project_run. reflexivity. }
  destruct (create_db_full st2) as (c1 & c2 & wc & Hc). rewrite Hc. cbn.
  match goal with
  | |- context [insert_data ?s] =>
      destruct (insert_data_full s) as (i1 & i2 & wi & Hi); rewrite Hi; cbn
  end.
  match goal with
  | |- context [select_data ?s] =>
      destruct (select_data_full s) as (s1 & s2 & ws & Hs); rewrite Hs; cbn
  end.
  match goal with
  | |- context [sqlite3_close ?d ?w] => destruct (sqlite3_close d w) as [? ?]
  end. cbn.
  match goal with
  | |- context [sqlite3_close ?d ?w] => destruct (sqlite3_close d w) as [? ?]
  end. cbn.
  match goal with
  | |- context [esp_vfs_spiffs_unregister ?d ?w] =>
      destruct (esp_vfs_spiffs_unregister d w) as [? ?]
  end. cbn.
  unfold create_db_trace, insert_data_trace, select_data_trace, step_trace.
  decide_statuses; project_run; reflexivity.
Qed.

(** The opens of a run whose mount succeeds are the open of the first
    database in the world the two [unlink] calls and [sqlite3_initialize]
    leave, and, when it succeeds, the open of the second database in the
    world the first open leaves. *)
Lemma opens_of_mounted_run (w : W) :
  fst (esp_vfs_spiffs_register conf w) = ESP_OK ->
  opens (trace_of w)
  = ("/spiffs/test1.db", fst (open1_result w), snd (open1_result w))
    :: (if fst (open1_result w) =? 0
        then [("/spiffs/test2.db", fst (open2_result w), snd (open2_result w))]
        else []).
Proof.
  intros Hok.
  unfold open1_result, open2_result, world_at_open2, world_at_open1,
    world_at_initialize, world_at_unlink2, world_at_unlink1, trace_of.
  destruct (esp_vfs_spiffs_register conf w) as [ret0 w1] eqn:Hreg.
  cbn [fst snd] in *. subst ret0.
  destruct (esp_spiffs_info None w1) as [[[ret1 total] used] w2] eqn:Hinfo.
  rewrite (run_mounted w w1 w2 ret1 total used Hreg Hinfo).
  cbn [fst snd].
  pose proof (database_phase_opens (boot w2)) as Hopens.
  cbv zeta in Hopens. cbn [world boot] in Hopens.
  rewrite <- Hopens.
  unfold opens, info_log. rewrite flat_map_app.
  destruct (ret1 =? ESP_OK); reflexivity.
Qed.

(** On a lawful filesystem, a path whose [unlink] succeeds, or that names
    no file when [unlink] is called, names no file afterwards. *)
Lemma absent_after_unlink (file_exists : W -> string -> bool) (w : W)
    (p : string) :
  filesystem_laws file_exists ->
  fst (unlink p w) = 0 \/ file_exists w p = false ->
  file_exists (snd (unlink p w)) p = false.
Proof.
  intros (Hremoved & Hkept & _) [Hdone | Habsent].
  - apply Hremoved, Hdone.
  - apply Hkept, Habsent.
Qed.

Lemma database_paths_differ : "/spiffs/test1.db" <> "/spiffs/test2.db".
Proof. discriminate. Qed.

(** C7.  In every run whose mount succeeds, [unlink] is called on both
    database paths right after the usage query is logged, on no condition
    and before any open, and its result is not looked at; the run opens
    the first path in the world the two calls and [sqlite3_initialize]
    leave and, when that open succeeds, the second path in the world the
    first open leaves.  On a lawful filesystem, when each [unlink] returns
    0 or finds no file at its path, neither open finds a file at its path:
    the run starts from fresh databases. *)
Theorem database_files_unlinked_before_open
    (file_exists : W -> string -> bool) (w : W) :
  filesystem_laws file_exists ->
  fst (esp_vfs_spiffs_register conf w) = ESP_OK ->
  fst (unlink "/spiffs/test1.db" (world_at_unlink1 w)) = 0 \/
  file_exists (world_at_unlink1 w) "/spiffs/test1.db" = false ->
  fst (unlink "/spiffs/test2.db" (world_at_unlink2 w)) = 0 \/
  file_exists (world_at_unlink2 w) "/spiffs/test2.db" = false ->
  (exists ret1 total used after,
      trace_of w
      = [ESP_LOG LOG_INFO TAG "Initializing SPIFFS" [];
         Call_spiffs_register conf ESP_OK;
         Call_spiffs_info None ret1 total used;
         info_log ret1 total used]
        ++ [Call_unlink "/spiffs/test1.db"; Call_unlink "/spiffs/test2.db"]
        ++ after /\
      forall f r d,
        In (f, r, d) (opens (trace_of w)) -> In (Call_sqlite3_open f r d) after) /\
  unlinks (trace_of w) = ["/spiffs/test1.db"; "/spiffs/test2.db"] /\
  opens (trace_of w)
  = ("/spiffs/test1.db", fst (open1_result w), snd (open1_result w))
    :: (if fst (open1_result w) =? 0
        then [("/spiffs/test2.db", fst (open2_result w), snd (open2_result w))]
        else []) /\
  fresh_opens file_exists w.
Proof.
  intros Hlaws Hok Hunlink1 Hunlink2.
  destruct (unlink_calls_precede_opens w Hok)
    as (ret1 & total & used & after & Htrace & Hunlinks & Hopens & _ & _).
  split; [| split; [exact Hunlinks | split]].
  - exists ret1, total, used, after. split; [exact Htrace|].
    intros f r d Hin. apply (Hopens f r d Hin).
  - apply opens_of_mounted_run, Hok.
  - pose proof (absent_after_unlink file_exists _ _ Hlaws Hunlink1) as H1.
    pose proof (absent_after_unlink file_exists _ _ Hlaws Hunlink2) as H2.
    destruct Hlaws as (_ & Hkept & Hinit & Hopen).
    unfold fresh_opens, world_at_open2, world_at_open1, world_at_initialize.
    split.
    + apply Hinit, Hkept. exact H1.
    + apply Hopen; [intros E; symmetry in E; revert E;
                    apply database_paths_differ|].
      apply Hinit. exact H2.
Qed.

End Runs.

(** ** More concrete runs *)

(** A negative column count with arrays that are not empty. *)
Lemma callback_without_columns_witness :
  -1 <= 0 /\
  callback data (-1) [Some "1"] [Some "id"]
  = Some (0, [Printf (lit "%s: \n") [AStr data]; Printf (lit "\n") []]).
Proof.
  split; [lia|].
  apply (callback_without_columns data (-1) [Some "1"] [Some "id"]). lia.
Defined.

(** One column reported out of arrays that hold two. *)
Lemma callback_reads_first_argc_entries_witness :
  List.length [Some "id"] = List.length [Some "1"] /\
  callback data (Z.of_nat (List.length [Some "1"]))
           ([Some "1"] ++ [Some "x"]) ([Some "id"] ++ [Some "content"])
  = callback data (Z.of_nat (List.length [Some "1"])) [Some "1"] [Some "id"].
Proof.
  split; [reflexivity|].
  apply (callback_reads_first_argc_entries
           data [Some "id"] [Some "1"] [Some "content"] [Some "x"]).
  reflexivity.
Defined.

(** The run in which the first open fails. *)
Lemma first_open_failure_ends_run_witness :
  opens (trace_of Fake.open1_fails) = ("/spiffs/test1.db", 14, 0) :: [] /\
  14 <> 0 /\
  (@nil (string * Z * sqlite3_ptr) = [] /\
   "/spiffs/test1.db" = "/spiffs/test1.db" /\
   execs (trace_of Fake.open1_fails) = [] /\
   closes (trace_of Fake.open1_fails) = [] /\
   unmounts (trace_of Fake.open1_fails) = 0%nat /\
   exists before msg,
     trace_of Fake.open1_fails
     = before ++ [Call_sqlite3_open "/spiffs/test1.db" 14 0;
                  Call_sqlite3_errmsg 0;
                  Printf (lit "Can't open database: %s\n")
                         [AStr (Some msg)]]).
Proof.
  assert (H : 14 <> 0) by discriminate.
  split; [vm_compute; reflexivity|]. split; [exact H|].
  apply (first_open_failure_ends_run
           Fake.open1_fails "/spiffs/test1.db" 0 14 []);
    [vm_compute; reflexivity | exact H].
Defined.

(** Three failed statements: four closes on each handle. *)
Lemma closes_once_more_than_failed_statements_witness :
  opened (trace_of Fake.create1_fails_then_misuse) = [1; 2] /\
  closes (trace_of Fake.create1_fails_then_misuse)
  = List.concat
      (repeat [1; 2]
         (S (List.length
               (failed_execs (trace_of Fake.create1_fails_then_misuse))))).
Proof.
  split; [vm_compute; reflexivity|].
  apply (closes_once_more_than_failed_statements
           Fake.create1_fails_then_misuse 1 2).
  vm_compute. reflexivity.
Defined.

(** The first INSERT fails: the second INSERT is skipped, the SELECTs are
    not. *)
Lemma every_step_is_attempted_witness :
  opened (trace_of Fake.insert1_fails) = [1; 2] /\
  exists rs,
    execs (trace_of Fake.insert1_fails)
    = step_execs 1 2 sql_create1 sql_create2 (rc_create1 rs) (rc_create2 rs)
      ++ step_execs 1 2 sql_insert1 sql_insert2
                    (rc_insert1 rs) (rc_insert2 rs)
      ++ step_execs 1 2 sql_select1 sql_select2
                    (rc_select1 rs) (rc_select2 rs).
Proof.
  split; [vm_compute; reflexivity|].
  apply (every_step_is_attempted Fake.insert1_fails 1 2).
  vm_compute. reflexivity.
Defined.

(** The second handle is closed in the run whose last SELECT fails. *)
Lemma only_opened_handles_are_used_witness :
  (In 2 (closes (trace_of Fake.select2_fails)) \/
   In 2 (map (fun e => fst (fst e)) (execs (trace_of Fake.select2_fails)))) /\
  In 2 (opened (trace_of Fake.select2_fails)).
Proof.
  assert (H : In 2 (closes (trace_of Fake.select2_fails)) \/
              In 2 (map (fun e => fst (fst e))
                        (execs (trace_of Fake.select2_fails))))
    by (left; vm_compute; right; left; reflexivity).
  split; [exact H|].
  apply (only_opened_handles_are_used Fake.select2_fails 2 H).
Defined.

(** The globals after the run whose last SELECT fails. *)
Lemma run_leaves_handles_in_globals_witness :
  opened (trace_of Fake.select2_fails) = [1; 2] /\
  db1 (snd (fst (run Fake.select2_fails))) = 1 /\
  db2 (snd (fst (run Fake.select2_fails))) = 2 /\
  rc (snd (fst (run Fake.select2_fails)))
  = last (map snd (execs (trace_of Fake.select2_fails))) 0.
Proof.
  split; [vm_compute; reflexivity|].
  apply (run_leaves_handles_in_globals Fake.select2_fails 1 2).
  vm_compute. reflexivity.
Defined.

(** On that run: the statuses, the closes and the final [rc]. *)
Example select2_fails_run :
  map snd (execs (trace_of Fake.select2_fails)) = [0; 0; 0; 0; 0; 1] /\
  closes (trace_of Fake.select2_fails) = [1; 2; 1; 2] /\
  frees (trace_of Fake.select2_fails) = [Some "no such table: test2"] /\
  rc (snd (fst (run Fake.select2_fails))) = 1.
Proof. repeat split; vm_compute; reflexivity. Qed.

(** ** Runs on the scripted filesystem *)

#[local] Existing Instance FakeFS.platform.

Lemma absent_after_filter (p : string) (keep : string -> bool)
    (l : list string) :
  existsb (String.eqb p) l = false ->
  existsb (String.eqb p) (filter keep l) = false.
Proof.
  induction l as [|f l IH]; cbn; [reflexivity|].
  intros H. apply orb_false_iff in H. destruct H as [Hf Hl].
  destruct (keep f); cbn; [rewrite Hf|]; auto.
Qed.

Lemma absent_after_removal (p : string) (l : list string) :
  existsb (String.eqb p) (filter (fun f => negb (String.eqb p f)) l) = false.
Proof.
  induction l as [|f l IH]; cbn; [reflexivity|].
  destruct (String.eqb p f) eqn:E; cbn; [exact IH|].
  rewrite E. exact IH.
Qed.

(** The scripted filesystem is lawful. *)
Lemma FakeFS_lawful :
  filesystem_laws FakeFS.file_exists.
Proof.
  unfold filesystem_laws. cbn [unlink sqlite3_initialize sqlite3_open
                                 FakeFS.platform].
  repeat split.
  - intros w p. unfold FakeFS.remove_file.
    destruct (FakeFS.unlink_works w && FakeFS.file_exists w p); cbn.
    + intros _. apply absent_after_removal.
    + discriminate.
  - intros w p q H. unfold FakeFS.remove_file.
    destruct (FakeFS.unlink_works w && FakeFS.file_exists w q); cbn.
    + apply absent_after_filter, H.
    + exact H.
  - auto.
  - intros w p q Hpq H. unfold FakeFS.open_file, FakeFS.file_exists in *. cbn.
    destruct (existsb (String.eqb q) (FakeFS.files w)); [exact H|].
    cbn. rewrite H. apply String.eqb_neq in Hpq. rewrite Hpq. reflexivity.
Qed.

(** Both files are left from an earlier run and both are removed. *)
Lemma database_files_unlinked_before_open_witness :
  fst (esp_vfs_spiffs_register conf FakeFS.leftover)
  = ESP_OK /\
  fresh_opens FakeFS.file_exists FakeFS.leftover.
Proof.
  split; [reflexivity|].
  apply (database_files_unlinked_before_open
           FakeFS.file_exists FakeFS.leftover).
  - exact FakeFS_lawful.
  - reflexivity.
  - left. reflexivity.
  - left. reflexivity.
Defined.

(** The first file is left from an earlier run and the filesystem refuses
    to remove it: [unlink] returns -1, the run goes on, opens the file that
    is still there and inserts into it. *)
Lemma stale_database_is_opened :
  filesystem_laws FakeFS.file_exists /\
  mounts (trace_of FakeFS.stale) = [0] /\
  unlinks (trace_of FakeFS.stale)
  = ["/spiffs/test1.db"; "/spiffs/test2.db"] /\
  fst (unlink "/spiffs/test1.db"
         (world_at_unlink1 FakeFS.stale)) = -1 /\
  FakeFS.file_exists (world_at_open1 FakeFS.stale)
    "/spiffs/test1.db" = true /\
  opens (trace_of FakeFS.stale)
  = [("/spiffs/test1.db", 0, 1); ("/spiffs/test2.db", 0, 2)] /\
  In (1, sql_insert1, 0) (execs (trace_of FakeFS.stale)) /\
  ~ fresh_opens FakeFS.file_exists FakeFS.stale.
Proof.
  split; [exact FakeFS_lawful|].
  do 5 (split; [vm_compute; reflexivity|]).
  split.
  - vm_compute. tauto.
  - intros [H _]. vm_compute in H. discriminate.
Qed.

(** ** The usage line

    [total] and [used] are [size_t] and are printed with [%d]: a size that
    fits in an [int] is printed as it is, a larger one wraps around. *)
Example usage_line_small :
  format "Partition size: total: %d, used: %d" [AInt 1000; AInt 10]
  = "Partition size: total: 1000, used: 10".
Proof. vm_compute. reflexivity. Qed.

Example usage_line_wraps :
  format "Partition size: total: %d, used: %d" [AInt 3000000000; AInt 10]
  = "Partition size: total: -1294967296, used: 10".
Proof. vm_compute. reflexivity. Qed.
